(** * The library catalogue: controllers, validation chains and the Author model

    A shallow embedding of the Express controllers of the catalogue
    (controllers/authorController.js, genreController.js, bookController.js,
    bookInstanceController.js), of the Author model (models/Author.js) and
    of the error handler of app.js.

    Conventions of the embedding.
    - A JavaScript string is a [string]; every character is one code unit,
      so the strings are those whose code units are below 256.
    - An identity (ObjectId) is the string that renders it.  Requests carry
      well-formed identities; what Mongoose does with a string that is not
      an ObjectId is not part of the embedding.
    - A collection is the list of its documents in insertion order, which is
      the order [find] returns them in and the order [findOne] searches.
    - A [Date] is represented by its ISO rendering.  A Date path of a
      document is unset ([None]), [null] ([Some None]) or a Date.
    - A handler runs in a monad that threads the store and the calls made on
      [res] and [next], and that can throw; [asyncHandler] turns an
      exception into a call of [next]. *)

From Stdlib Require Import String Ascii List Bool Arith Lia.
From Stdlib Require Import Sorted Permutation.
Import ListNotations.
Local Open Scope list_scope.
Local Open Scope string_scope.

(** ** Strings: the sanitizers of validator.js *)

(** The code units below 256 that the regular expression class \s matches:
    tab, line feed, vertical tab, form feed, carriage return (9 to 13),
    space (32) and no-break space (160). *)
Definition is_space (c : ascii) : bool :=
  let n := nat_of_ascii c in
  ((9 <=? n)%nat && (n <=? 13)%nat) || (n =? 32)%nat || (n =? 160)%nat.

Fixpoint ltrim (s : string) : string :=
  match s with
  | EmptyString => EmptyString
  | String c r => if is_space c then ltrim r else s
  end.

Fixpoint rtrim (s : string) : string :=
  match s with
  | EmptyString => EmptyString
  | String c r =>
      match rtrim r with
      | EmptyString => if is_space c then EmptyString else String c EmptyString
      | r' => String c r'
      end
  end.

(** [trim(str)] is [rtrim(ltrim(str))]. *)
Definition trim (s : string) : string := rtrim (ltrim s).

(** [escape] replaces the characters that are significant in markup. *)
Definition escape_char (c : ascii) : string :=
  match nat_of_ascii c with
  | 38 => "&amp;"
  | 34 => "&quot;"
  | 39 => "&#x27;"
  | 60 => "&lt;"
  | 62 => "&gt;"
  | 47 => "&#x2F;"
  | 92 => "&#x5C;"
  | 96 => "&#96;"
  | _ => String c EmptyString
  end.

Fixpoint escape (s : string) : string :=
  match s with
  | EmptyString => EmptyString
  | String c r => escape_char c ++ escape r
  end.

(** [isLength({ min })]. *)
Definition isLength (min : nat) (s : string) : bool := (min <=? String.length s)%nat.

(** ** Form values *)

(** What a field of [req.body] can hold while a chain runs: nothing, [null]
    (a date that did not parse), a string, or a [Date]. *)
Inductive fval : Type :=
| VUndefined
| VNull
| VStr (s : string)
| VDate (iso : string).

(** The [toString] that express-validator applies before a standard
    validator or sanitizer. *)
Definition toString (v : fval) : string :=
  match v with
  | VUndefined | VNull => ""
  | VStr s => s
  | VDate iso => iso
  end.

(** JavaScript truthiness of a form value. *)
Definition truthy (v : fval) : bool :=
  match v with
  | VUndefined | VNull => false
  | VStr s => negb (s =? "")
  | VDate _ => true
  end.

(** ** Validation chains (express-validator) *)

(** One entry of [validationResult(req).array()]. *)
Record verror : Type := mkVerror {
  ve_path : string;
  ve_msg : string;
  ve_value : fval
}.

(** The links of a chain, as they are written in the controllers. *)
Inductive link : Type :=
| Sanitizer (f : string -> fval)
| Validator (p : string -> bool)
| withMessage (m : string)
| optional_checkFalsy.

(** A chain after [withMessage] has been attached to the validator it
    follows. *)
Inductive item : Type :=
| ISanitize (f : string -> fval)
| IValidate (p : string -> bool) (msg : option string).

(** [withMessage m] sets the message of the last validator before it; the
    accumulator holds the items in reverse. *)
Fixpoint set_last_message (m : string) (rev_items : list item) : list item :=
  match rev_items with
  | [] => []
  | IValidate p _ :: r => IValidate p (Some m) :: r
  | i :: r => i :: set_last_message m r
  end.

Fixpoint attach (links : list link) (rev_items : list item) : list item :=
  match links with
  | [] => rev rev_items
  | Sanitizer f :: r => attach r (ISanitize f :: rev_items)
  | Validator p :: r => attach r (IValidate p None :: rev_items)
  | withMessage m :: r => attach r (set_last_message m rev_items)
  | optional_checkFalsy :: r => attach r rev_items
  end.

(** [optional({ checkFalsy: true })] marks the whole chain, wherever it is
    written. *)
Definition is_optional (links : list link) : bool :=
  existsb (fun l => match l with optional_checkFalsy => true | _ => false end) links.

(** A field instance of an optional chain is left out of a step when the
    value it holds at that step is falsy.  Without [optional] every step
    runs. *)
Definition skipped (opt : bool) (v : fval) : bool :=
  opt && negb (truthy v).

(** Running the items on one field instance: the value is threaded through
    the sanitizers, each validator is tried on the value it meets, a failed
    validator adds an error and the chain goes on. *)
Fixpoint run_items (path default_msg : string) (opt : bool)
         (items : list item) (v : fval) (errs : list verror)
  : fval * list verror :=
  match items with
  | [] => (v, errs)
  | i :: r =>
      if skipped opt v then run_items path default_msg opt r v errs
      else
        match i with
        | ISanitize f => run_items path default_msg opt r (f (toString v)) errs
        | IValidate p msg =>
            if p (toString v) then run_items path default_msg opt r v errs
            else
              let m := match msg with Some m => m | None => default_msg end in
              run_items path default_msg opt r v (errs ++ [mkVerror path m v])%list
        end
  end.

(** A chain: [body(path, message)] followed by its links. *)
Record chain : Type := body {
  ch_path : string;
  ch_message : option string;
  ch_links : list link
}.

(** The message of a chain that was given none. *)
Definition invalid_value : string := "Invalid value".

Definition run_chain (c : chain) (v : fval) : fval * list verror :=
  run_items (ch_path c)
            (match ch_message c with Some m => m | None => invalid_value end)
            (is_optional (ch_links c)) (attach (ch_links c) []) v [].

Definition sanitized (c : chain) (v : fval) : fval := fst (run_chain c v).
Definition failures (c : chain) (v : fval) : list verror := snd (run_chain c v).

(** The links used by the controllers. *)
Definition Trim : link := Sanitizer (fun s => VStr (trim s)).
Definition Escape : link := Sanitizer (fun s => VStr (escape s)).
Definition IsLength (min : nat) : link := Validator (isLength min).

(** Truthiness of a path of a document: set and not the empty string. *)
Definition path_truthy (f : option string) : bool :=
  match f with
  | Some s => negb (s =? "")
  | None => false
  end.

(** A value inside a template literal. *)
Definition interpolate (f : option string) : string :=
  match f with Some s => s | None => "undefined" end.

(** The update that [findByIdAndUpdate] makes from a document sets the
    paths the document has, those that are [null] included; a path it
    leaves unset keeps the stored value. *)
Definition or_old {A} (new old : option A) : option A :=
  match new with Some x => Some x | None => old end.

(** ** models/Author.js *)

Definition oid : Type := string.

Module Author.

Record t : Type := mk {
  _id : oid;
  first_name : option string;
  family_name : option string;
  date_of_birth : option (option string);
  date_of_death : option (option string)
}.

(** The virtual [name]. *)
Definition name (this : t) : string :=
  let fullname := "" in
  let fullname :=
    if path_truthy (first_name this) && path_truthy (family_name this)
    then interpolate (family_name this) ++ ", " ++ interpolate (first_name this)
    else fullname in
  let fullname :=
    if negb (path_truthy (first_name this)) || negb (path_truthy (family_name this))
    then ""
    else fullname in
  fullname.

(** The virtual [url]. *)
Definition url (this : t) : string := "/catalog/author/" ++ _id this.

End Author.

(** ** The other models *)

(** Modelled from the spec: models/Genre.js is missing from the sources.  A
    Genre has an identity and a [name]; its canonical path is built from
    the identity the way the Author's is. *)
Module Genre.

Record t : Type := mk {
  _id : oid;
  name : option string
}.

Definition url (this : t) : string := "/catalog/genre/" ++ _id this.

Definition assign (old new : t) : t :=
  mk (_id old) (or_old (name new) (name old)).

End Genre.

(** Modelled from the spec: models/Book.js is missing from the sources.  A
    Book has an identity, [title], [author] (a reference to one Author),
    [summary], [isbn] and [genre] (a list of references to Genre). *)
Module Book.

Record t : Type := mk {
  _id : oid;
  title : option string;
  author : option oid;
  summary : option string;
  isbn : option string;
  genre : list oid
}.

Definition url (this : t) : string := "/catalog/book/" ++ _id this.

(** The projection ['title summary']. *)
Record brief : Type := mkBrief {
  brief_id : oid;
  brief_title : option string;
  brief_summary : option string
}.

Definition title_summary (b : t) : brief :=
  mkBrief (_id b) (title b) (summary b).

(** A Book whose references have been resolved by [populate]. *)
Record populated : Type := mkPopulated {
  doc : t;
  author_doc : option Author.t;
  genre_docs : list Genre.t
}.

Definition assign (old new : t) : t :=
  mk (_id old)
     (or_old (title new) (title old))
     (or_old (author new) (author old))
     (or_old (summary new) (summary old))
     (or_old (isbn new) (isbn old))
     (genre new).

End Book.

(** Modelled from the spec: models/BookInstance.js is missing from the
    sources.  A BookInstance has an identity, [book] (a reference to one
    Book), [imprint], [status] and [due_back]. *)
Module BookInstance.

Record t : Type := mk {
  _id : oid;
  book : option oid;
  imprint : option string;
  status : option string;
  due_back : option (option string)
}.

Definition url (this : t) : string := "/catalog/bookinstance/" ++ _id this.

Record populated : Type := mkPopulated {
  doc : t;
  book_doc : option Book.t
}.

(** The constructor is always given [book], a document or [null], so the
    update always sets that path. *)
Definition assign (old new : t) : t :=
  mk (_id old)
     (book new)
     (or_old (imprint new) (imprint old))
     (or_old (status new) (status old))
     (or_old (due_back new) (due_back old)).

End BookInstance.

(** ** The store *)

Record store : Type := mkStore {
  authors : list Author.t;
  genres : list Genre.t;
  books : list Book.t;
  bookinstances : list BookInstance.t
}.

Definition set_authors (s : store) (l : list Author.t) : store :=
  mkStore l (genres s) (books s) (bookinstances s).
Definition set_genres (s : store) (l : list Genre.t) : store :=
  mkStore (authors s) l (books s) (bookinstances s).
Definition set_books (s : store) (l : list Book.t) : store :=
  mkStore (authors s) (genres s) l (bookinstances s).
Definition set_bookinstances (s : store) (l : list BookInstance.t) : store :=
  mkStore (authors s) (genres s) (books s) l.

Section Collection.

Context {A : Type} (id_of : A -> oid).

Definition findById (c : list A) (id : oid) : option A :=
  find (fun d => id_of d =? id) c.

(** [findByIdAndRemove]: the document of that identity, if any, leaves
    the collection. *)
Fixpoint findByIdAndRemove (c : list A) (id : oid) : list A :=
  match c with
  | [] => []
  | d :: r => if id_of d =? id then r else d :: findByIdAndRemove r id
  end.

(** [findByIdAndUpdate(id, doc, {})]: the stored document is assigned the
    paths of [doc]; the result is the document as it was before. *)
Fixpoint findByIdAndUpdate (assign : A -> A -> A) (c : list A) (id : oid) (new : A)
  : option A * list A :=
  match c with
  | [] => (None, [])
  | d :: r =>
      if id_of d =? id then (Some d, assign d new :: r)
      else let '(old, r') := findByIdAndUpdate assign r id new in (old, d :: r')
  end.

(** [save] of a new document: the collection has a unique index on the
    identity. *)
Definition insert (c : list A) (d : A) : option (list A) :=
  match findById c (id_of d) with
  | Some _ => None
  | None => Some (c ++ [d])%list
  end.

End Collection.

Definition oid_in (i : oid) (l : list oid) : bool :=
  existsb (fun j => j =? i) l.

(** [Book.find({ author: id })], [Book.find({ genre: id })] and
    [BookInstance.find({ book: id })]. *)
Definition books_by_author (s : store) (id : oid) : list Book.t :=
  filter (fun b => match Book.author b with Some a => a =? id | None => false end) (books s).

Definition books_with_genre (s : store) (id : oid) : list Book.t :=
  filter (fun b => oid_in id (Book.genre b)) (books s).

Definition instances_of_book (s : store) (id : oid) : list BookInstance.t :=
  filter (fun i => match BookInstance.book i with Some b => b =? id | None => false end)
         (bookinstances s).

(** [populate]. *)
Definition populate_book (s : store) (b : Book.t) : Book.populated :=
  Book.mkPopulated b
    (match Book.author b with
     | Some a => findById Author._id (authors s) a
     | None => None
     end)
    (flat_map (fun g => match findById Genre._id (genres s) g with
                        | Some d => [d]
                        | None => []
                        end) (Book.genre b)).

Definition populate_instance (s : store) (i : BookInstance.t) : BookInstance.populated :=
  BookInstance.mkPopulated i
    (match BookInstance.book i with
     | Some b => findById Book._id (books s) b
     | None => None
     end).

(** [Genre.findOne({ name })]. *)
Definition findOne_genre_by_name (s : store) (n : fval) : option Genre.t :=
  match n with
  | VStr n => find (fun g => match Genre.name g with Some m => m =? n | None => false end)
                   (genres s)
  | _ => None
  end.

(** ** Casting form values to the paths of a document *)

Definition cast_string (v : fval) : option string :=
  match v with
  | VStr s => Some s
  | VDate iso => Some iso
  | VUndefined | VNull => None
  end.

(** An ObjectId path: the empty string does not cast, and the path stays
    unset. *)
Definition cast_oid (v : fval) : option oid :=
  match v with
  | VStr s => if s =? "" then None else Some s
  | _ => None
  end.

(** ** Errors, responses and the handler monad *)

Record jserror : Type := mkError {
  e_name : string;
  e_message : string;
  e_status : option nat
}.

(** [new Error(message)], and the assignment [err.status = n]. *)
Definition new_Error (message : string) : jserror := mkError "Error" message None.
Definition set_status (e : jserror) (n : nat) : jserror :=
  mkError (e_name e) (e_message e) (Some n).

(** Reading a variable that was never declared. *)
Definition ReferenceError (variable : string) : jserror :=
  mkError "ReferenceError" (variable ++ " is not defined") None.

(** Reading a property of [null]. *)
Definition TypeError_null (property : string) : jserror :=
  mkError "TypeError" ("Cannot read properties of null (reading '" ++ property ++ "')") None.

(** The mark the Book forms put on a genre: none, the boolean [true], or
    the string ["true"]. *)
Inductive checked : Type := unchecked | checked_true | checked_string.

(** The values handed to a view. *)
Inductive pval : Type :=
| PString (s : string)
| PAuthor (a : option Author.t)
| PAuthors (l : list Author.t)
| PGenre (g : option Genre.t)
| PGenres (l : list (Genre.t * checked))
| PBook (b : option Book.t)
| PBookPopulated (b : option Book.populated)
| PBooks (l : list Book.t)
| PBriefs (l : list Book.brief)
| PInstance (i : option BookInstance.populated)
| PInstances (l : list BookInstance.populated)
| PInstanceDocs (l : list BookInstance.t)
| PErrors (l : list verror)
| PId (i : oid)
| PValue (v : option string).

Definition locals : Type := list (string * pval).

(** What a handler does to answer: the calls it makes on [res] and [next],
    in order. *)
Inductive call : Type :=
| Render (view : string) (data : locals)
| Redirect (path : string)
| Next (e : jserror).

Record world : Type := mkWorld {
  db : store;
  calls : list call
}.

Inductive outcome (A : Type) : Type :=
| Returned (a : A)
| Thrown (e : jserror).
Arguments Returned {A} a.
Arguments Thrown {A} e.

Definition M (A : Type) : Type := world -> outcome A * world.

Definition ret {A} (a : A) : M A := fun w => (Returned a, w).

Definition bind {A B} (m : M A) (k : A -> M B) : M B :=
  fun w =>
    match m w with
    | (Returned a, w') => k a w'
    | (Thrown e, w') => (Thrown e, w')
    end.

Declare Scope handler_scope.
Delimit Scope handler_scope with handler.
Notation "x <- m ;; k" := (bind m (fun x => k))
  (at level 61, m at next level, right associativity) : handler_scope.
Notation "m ;; k" := (bind m (fun _ => k))
  (at level 61, right associativity) : handler_scope.
Local Open Scope handler_scope.

Definition throw {A} (e : jserror) : M A := fun w => (Thrown e, w).

Definition read {A} (q : store -> A) : M A := fun w => (Returned (q (db w)), w).

Definition write (f : store -> store) : M unit :=
  fun w => (Returned tt, mkWorld (f (db w)) (calls w)).

Definition emit (c : call) : M unit :=
  fun w => (Returned tt, mkWorld (db w) (calls w ++ [c])%list).

Definition res_render (view : string) (data : locals) : M unit := emit (Render view data).
Definition res_redirect (path : string) : M unit := emit (Redirect path).
Definition next (e : jserror) : M unit := emit (Next e).

(** [asyncHandler(fn)]: an exception of [fn] is passed to [next]. *)
Definition asyncHandler (fn : M unit) : world -> world :=
  fun w =>
    match fn w with
    | (Returned _, w') => w'
    | (Thrown e, w') => mkWorld (db w') (calls w' ++ [Next e])%list
    end.

(** A request served on a store: the store it leaves and the calls made. *)
Definition serve (h : world -> world) (s : store) : store * list call :=
  let w := h (mkWorld s []) in (db w, calls w).

(** ** app.js: the error handler *)

(** [res.status(err.status || 500)]. *)
Definition error_status (err : jserror) : nat :=
  match e_status err with
  | Some 0 | None => 500
  | Some n => n
  end.

(** What the client receives: the first call answers the request. *)
Inductive response : Type :=
| Page (view : string) (data : locals)
| Found (location : string)
| ErrorPage (status : nat) (message : string).

Definition answer (cs : list call) : option response :=
  match cs with
  | [] => None
  | Render v d :: _ => Some (Page v d)
  | Redirect p :: _ => Some (Found p)
  | Next e :: _ => Some (ErrorPage (error_status e) (e_message e))
  end.

(** ** Small pieces of JavaScript *)

Definition is_null {A} (o : option A) : bool :=
  match o with Some _ => false | None => true end.

Definition when (b : bool) (m : M unit) : M unit :=
  if b then m else ret tt.

(** [errors.isEmpty()]. *)
Definition isEmpty (errors : list verror) : bool :=
  match errors with [] => true | _ => false end.

(** The duplicate-key error of the store. *)
Definition duplicate_key : jserror :=
  mkError "MongoServerError" "E11000 duplicate key error" None.

(** The error of [save] on a document that the schema refuses: its message
    names the model and, for each path refused, the path and the reason. *)
Definition ValidationError (model : string) (errors : list (string * string)) : jserror :=
  mkError "ValidationError"
          (model ++ " validation failed: "
           ++ String.concat ", " (map (fun e => fst e ++ ": " ++ snd e) errors))
          None.

Definition required_message (path : string) : string :=
  "Path `" ++ path ++ "` is required.".

(** The paths among [paths] that have no value, with the reason. *)
Definition required_errors (paths : list (string * option string))
  : list (string * string) :=
  flat_map (fun p => if path_truthy (snd p) then []
                     else [(fst p, required_message (fst p))]) paths.

(** [doc.url] of the result of a query that found nothing. *)
Definition url_of {A} (url : A -> string) (d : option A) : M string :=
  match d with
  | Some d => ret (url d)
  | None => throw (TypeError_null "url")
  end.

(** ** controllers/genreController.js *)

Module GenreForm.
Record t : Type := mk { name : fval }.
End GenreForm.

Definition new_Genre (_id : oid) (name : fval) : Genre.t :=
  Genre.mk _id (cast_string name).

(** Modelled from the spec: the schema of models/Genre.js is missing from
    the sources; the path [name] is required. *)
Definition genre_paths_present (g : Genre.t) : bool := path_truthy (Genre.name g).

Definition save_genre (g : Genre.t) : M unit :=
  if genre_paths_present g then
    s <- read (fun s => s) ;;
    match insert Genre._id (genres s) g with
    | Some l => write (fun s => set_genres s l)
    | None => throw duplicate_key
    end
  else throw (ValidationError "Genre" (required_errors [("name", Genre.name g)])).

Definition genre_detail (id : oid) : world -> world :=
  asyncHandler (
    genre <- read (fun s => findById Genre._id (genres s) id) ;;
    booksInGenre <- read (fun s => map Book.title_summary (books_with_genre s id)) ;;
    if is_null genre then
      let err := new_Error "Genre Not Found" in
      let err := set_status err 404 in
      next err
    else
      res_render "genre_detail"
        [("title", PString "Genre Details");
         ("genre", PGenre genre);
         ("genre_books", PBriefs booksInGenre)]).

Definition genre_create_chain : chain :=
  body "name" (Some "Genre must be at least 3 characters")
       [Trim; IsLength 3; Escape].

Definition genre_create_post (fresh : oid) (req_body : GenreForm.t) : world -> world :=
  let '(name, errors) := run_chain genre_create_chain (GenreForm.name req_body) in
  asyncHandler (
    let genre := new_Genre fresh name in
    if negb (isEmpty errors) then
      res_render "genre_form"
        [("title", PString "Create Genre");
         ("genre", PGenre (Some genre));
         ("errors", PErrors errors)]
    else
      genreExists <- read (fun s => findOne_genre_by_name s name) ;;
      match genreExists with
      | Some g => res_redirect (Genre.url g)
      | None =>
          save_genre genre ;;
          res_redirect (Genre.url genre)
      end).

Definition genre_delete_get (id : oid) : world -> world :=
  asyncHandler (
    genre <- read (fun s => findById Genre._id (genres s) id) ;;
    allBooksWithGenre <- read (fun s => books_with_genre s id) ;;
    when (is_null genre) (res_redirect "/catalog/genres") ;;
    res_render "genre_delete"
      [("title", PString "Delete Genre");
       ("genre", PGenre genre);
       ("genre_books", PBooks allBooksWithGenre)]).

Definition genre_delete_post (id genreid : oid) : world -> world :=
  asyncHandler (
    genre <- read (fun s => findById Genre._id (genres s) id) ;;
    allBooksWithGenre <- read (fun s => map Book.title_summary (books_with_genre s id)) ;;
    if (0 <? length allBooksWithGenre)%nat then
      res_render "genre_delete"
        [("title", PString "Delete Genre");
         ("genre", PGenre genre);
         ("genre_books", PBriefs allBooksWithGenre)]
    else
      write (fun s => set_genres s (findByIdAndRemove Genre._id (genres s) genreid)) ;;
      res_redirect "/catalog/genres").

Definition genre_update_get (id : oid) : world -> world :=
  asyncHandler (
    genre <- read (fun s => findById Genre._id (genres s) id) ;;
    if is_null genre then
      let error := new_Error "Genre does not exist." in
      let error := set_status error 404 in
      next error
    else
      res_render "genre_form"
        [("title", PString "Update Genre");
         ("genre", PGenre genre)]).

Definition genre_update_chain : chain :=
  body "name" (Some "An updated genre name must be provided")
       [Trim; IsLength 1; Escape].

Definition update_genre (id : oid) (g : Genre.t) : M (option Genre.t) :=
  s <- read (fun s => s) ;;
  let '(old, l) := findByIdAndUpdate Genre._id Genre.assign (genres s) id g in
  write (fun s => set_genres s l) ;;
  ret old.

Definition genre_update_post (id : oid) (req_body : GenreForm.t) : world -> world :=
  let '(name, errors) := run_chain genre_update_chain (GenreForm.name req_body) in
  asyncHandler (
    let genre := new_Genre id name in
    if negb (isEmpty errors) then
      res_render "genre_form"
        [("title", PString "Update Genre");
         ("genre", PGenre (Some genre));
         ("errors", PErrors errors)]
    else
      updatedGenre <- update_genre id genre ;;
      url <- url_of Genre.url updatedGenre ;;
      res_redirect url).

(** ** The forms *)

(** The fields of [req.body] that the update forms submit. *)
Module AuthorForm.
Record t : Type := mk {
  first_name : fval;
  family_name : fval;
  date_of_birth : fval;
  date_of_death : fval
}.
End AuthorForm.

(** The [genre] field of a Book form: not submitted, submitted once (a
    string), or submitted several times (an array). *)
Inductive genre_field : Type :=
| genre_undefined
| genre_string (s : string)
| genre_array (l : list string).

Module BookForm.
Record t : Type := mk {
  title : fval;
  author : fval;
  summary : fval;
  isbn : fval;
  genre : genre_field
}.
End BookForm.

Module BookInstanceForm.
Record t : Type := mk {
  book : fval;
  imprint : fval;
  due_back : fval;
  status : fval
}.
End BookInstanceForm.

(** ** Dates *)

Section Dates.

(** Two functions of the platform are taken as given: validator.js's
    [isISO8601], and [Date.parse], whose result is kept as the ISO
    rendering of the instant ([None] when the string does not parse). *)
Variable isISO8601 : string -> bool.
Variable Date_parse : string -> option string.

Definition IsISO8601 : link := Validator isISO8601.

(** [toDate]: a [Date], or [null] when the string does not parse. *)
Definition ToDate : link :=
  Sanitizer (fun s => match Date_parse s with Some d => VDate d | None => VNull end).

(** A Date path: a [Date] is kept; [null] and the empty string give
    [null]; a non-empty string is parsed, and the path stays unset when it
    does not parse; nothing gives nothing. *)
Definition cast_date (v : fval) : option (option string) :=
  match v with
  | VDate d => Some (Some d)
  | VNull => Some None
  | VStr s =>
      if s =? "" then Some None
      else match Date_parse s with Some d => Some (Some d) | None => None end
  | VUndefined => None
  end.

(** ** controllers/authorController.js *)

Definition author_detail (id : oid) : world -> world :=
  asyncHandler (
    author <- read (fun s => findById Author._id (authors s) id) ;;
    allBooksByAuthor <- read (fun s => map Book.title_summary (books_by_author s id)) ;;
    if is_null author then
      let err := new_Error "Author not found" in
      let err := set_status err 404 in
      next err
    else
      res_render "author_detail"
        [("title", PString "Author Detail");
         ("author", PAuthor author);
         ("author_books", PBriefs allBooksByAuthor)]).

Definition author_delete_get (id : oid) : world -> world :=
  asyncHandler (
    author <- read (fun s => findById Author._id (authors s) id) ;;
    allBooksByAuthor <- read (fun s => map Book.title_summary (books_by_author s id)) ;;
    when (is_null author) (res_redirect "/catalog/authors") ;;
    res_render "author_delete"
      [("title", PString "Delete Author");
       ("author", PAuthor author);
       ("author_books", PBriefs allBooksByAuthor)]).

Definition author_delete_post (id authorid : oid) : world -> world :=
  asyncHandler (
    author <- read (fun s => findById Author._id (authors s) id) ;;
    allBooksByAuthor <- read (fun s => map Book.title_summary (books_by_author s id)) ;;
    if (0 <? length allBooksByAuthor)%nat then
      res_render "author_delete"
        [("title", PString "Delete Author");
         ("author", PAuthor author);
         ("author_books", PBriefs allBooksByAuthor)]
    else
      write (fun s => set_authors s (findByIdAndRemove Author._id (authors s) authorid)) ;;
      res_redirect "/catalog/authors").

Definition author_update_get (id : oid) : world -> world :=
  asyncHandler (
    author <- read (fun s => findById Author._id (authors s) id) ;;
    if is_null author then
      let error := new_Error "Author not found." in
      let error := set_status error 404 in
      next error
    else
      res_render "author_form"
        [("title", PString "Update Form");
         ("author", PAuthor author)]).

Definition author_update_chains : list chain :=
  [ body "first_name" (Some "First Name must be provided.")
         [Trim; IsLength 1; Escape];
    body "family_name" None
         [Trim; IsLength 1; Escape];
    body "date_of_birth" None
         [optional_checkFalsy; IsISO8601; ToDate;
          withMessage "Invalid date of birth or not specified"];
    body "date_of_death" None
         [optional_checkFalsy; IsISO8601; ToDate;
          withMessage "Invalid date of death or not specified"] ].

(** The chains of a route run one after the other on [req.body]; the
    failures are collected in that order. *)
Definition author_update_validate (b : AuthorForm.t) : AuthorForm.t * list verror :=
  match author_update_chains with
  | [c1; c2; c3; c4] =>
      let r1 := run_chain c1 (AuthorForm.first_name b) in
      let r2 := run_chain c2 (AuthorForm.family_name b) in
      let r3 := run_chain c3 (AuthorForm.date_of_birth b) in
      let r4 := run_chain c4 (AuthorForm.date_of_death b) in
      (AuthorForm.mk (fst r1) (fst r2) (fst r3) (fst r4),
       (snd r1 ++ snd r2 ++ snd r3 ++ snd r4)%list)
  | _ => (b, [])
  end.

Definition new_Author (_id : oid) (b : AuthorForm.t) : Author.t :=
  Author.mk _id
    (cast_string (AuthorForm.first_name b))
    (cast_string (AuthorForm.family_name b))
    (cast_date (AuthorForm.date_of_birth b))
    (cast_date (AuthorForm.date_of_death b)).

Definition assign_author (old new : Author.t) : Author.t :=
  Author.mk (Author._id old)
    (or_old (Author.first_name new) (Author.first_name old))
    (or_old (Author.family_name new) (Author.family_name old))
    (or_old (Author.date_of_birth new) (Author.date_of_birth old))
    (or_old (Author.date_of_death new) (Author.date_of_death old)).

Definition update_author (id : oid) (a : Author.t) : M (option Author.t) :=
  s <- read (fun s => s) ;;
  let '(old, l) := findByIdAndUpdate Author._id assign_author (authors s) id a in
  write (fun s => set_authors s l) ;;
  ret old.

Definition author_update_post (id : oid) (req_body : AuthorForm.t) : world -> world :=
  let '(req_body, errors) := author_update_validate req_body in
  asyncHandler (
    let author := new_Author id req_body in
    if negb (isEmpty errors) then
      res_render "author_form"
        [("title", PString "Update Author");
         ("author", PAuthor (Some author));
         ("errors", PErrors errors)]
    else
      updatedAuthor <- update_author id author ;;
      url <- url_of Author.url updatedAuthor ;;
      res_redirect url).

(** ** controllers/bookController.js *)

Definition book_detail (id : oid) : world -> world :=
  asyncHandler (
    book <- read (fun s => option_map (populate_book s) (findById Book._id (books s) id)) ;;
    bookInstances <- read (fun s => instances_of_book s id) ;;
    match book with
    | None =>
        let err := new_Error "Book not found." in
        let err := set_status err 404 in
        next err
    | Some b =>
        res_render "book_detail"
          [("title", PValue (Book.title (Book.doc b)));
           ("book", PBookPopulated book);
           ("book_instances", PInstanceDocs bookInstances)]
    end).

(** [new Array(x)] for a string [x]. *)
Definition new_Array (s : string) : genre_field := genre_array [s].

(** [x instanceof Array]. *)
Definition instanceof_Array (g : genre_field) : bool :=
  match g with genre_array _ => true | _ => false end.

(** The first middleware of [book_create_post]. *)
Definition book_create_genre_to_array (g : genre_field) : genre_field :=
  if negb (instanceof_Array g) then
    match g with
    | genre_undefined => genre_array []
    | genre_string s => new_Array s
    | genre_array l => genre_array l
    end
  else g.

(** [body("genre.*").escape()]: the wildcard selects the elements of an
    array, and nothing of a string or of a missing field. *)
Definition escape_each (g : genre_field) : genre_field :=
  match g with
  | genre_array l => genre_array (map escape l)
  | _ => g
  end.

Definition book_chains : list chain :=
  [ body "title" (Some "Title must not be empty") [Trim; IsLength 1; Escape];
    body "author" (Some "Author must not be empty") [Trim; IsLength 1; Escape];
    body "summary" (Some "Summary must not be empty") [Trim; IsLength 1; Escape];
    body "isbn" (Some "ISBN must not be empty") [Trim; IsLength 1; Escape] ].

Definition book_validate (b : BookForm.t) : BookForm.t * list verror :=
  match book_chains with
  | [c1; c2; c3; c4] =>
      let r1 := run_chain c1 (BookForm.title b) in
      let r2 := run_chain c2 (BookForm.author b) in
      let r3 := run_chain c3 (BookForm.summary b) in
      let r4 := run_chain c4 (BookForm.isbn b) in
      (BookForm.mk (fst r1) (fst r2) (fst r3) (fst r4) (escape_each (BookForm.genre b)),
       (snd r1 ++ snd r2 ++ snd r3 ++ snd r4)%list)
  | _ => (b, [])
  end.

(** An array path of ObjectIds: an array is taken as it is, a single
    value becomes a one-element array, a missing one the empty array. *)
Definition cast_oids (g : genre_field) : list oid :=
  match g with
  | genre_undefined => []
  | genre_string s => [s]
  | genre_array l => l
  end.

Definition new_Book (_id : oid) (title author summary isbn : fval) (genre : genre_field)
  : Book.t :=
  Book.mk _id (cast_string title) (cast_oid author) (cast_string summary)
          (cast_string isbn) (cast_oids genre).

(** Modelled from the spec: the schema of models/Book.js is missing from
    the sources; the four scalar paths are required. *)
Definition book_paths_present (b : Book.t) : bool :=
  path_truthy (Book.title b) && path_truthy (Book.author b)
  && path_truthy (Book.summary b) && path_truthy (Book.isbn b).

Definition save_book (b : Book.t) : M unit :=
  if book_paths_present b then
    s <- read (fun s => s) ;;
    match insert Book._id (books s) b with
    | Some l => write (fun s => set_books s l)
    | None => throw duplicate_key
    end
  else throw (ValidationError "Book"
                (required_errors [("title", Book.title b); ("author", Book.author b);
                                  ("summary", Book.summary b); ("isbn", Book.isbn b)])).

(** The loop that marks the genres of the book in the list of all
    genres, as the two submit handlers write it. *)
Definition mark_included (book : Book.t) (allGenres : list Genre.t)
  : list (Genre.t * checked) :=
  map (fun genre =>
         (genre,
          if oid_in (Genre._id genre) (Book.genre book)
          then checked_string else unchecked))
      allGenres.

(** [req.body] after a middleware has rewritten its [genre] field. *)
Definition with_genre (f : genre_field -> genre_field) (b : BookForm.t) : BookForm.t :=
  BookForm.mk (BookForm.title b) (BookForm.author b) (BookForm.summary b)
              (BookForm.isbn b) (f (BookForm.genre b)).

(** The middlewares of [book_create_post] before its handler: what they
    leave in [req.body], and the failures. *)
Definition book_create_middlewares (req_body : BookForm.t) : BookForm.t * list verror :=
  book_validate (with_genre book_create_genre_to_array req_body).

Definition book_create_post (fresh : oid) (req_body : BookForm.t) : world -> world :=
  let '(req_body, errors) := book_create_middlewares req_body in
  asyncHandler (
    let book := new_Book fresh (BookForm.title req_body) (BookForm.author req_body)
                         (BookForm.summary req_body) (BookForm.isbn req_body)
                         (BookForm.genre req_body) in
    if negb (isEmpty errors) then
      allAuthors <- read authors ;;
      allGenres <- read genres ;;
      res_render "book_form"
        [("title", PString "Create Book");
         ("authors", PAuthors allAuthors);
         ("genres", PGenres (mark_included book allGenres));
         ("book", PBook (Some book));
         ("errors", PErrors errors)]
    else
      save_book book ;;
      res_redirect (Book.url book)).

Definition book_delete_get (id : oid) : world -> world :=
  asyncHandler (
    book <- read (fun s => findById Book._id (books s) id) ;;
    allBookInstances <- read (fun s => map (populate_instance s) (instances_of_book s id)) ;;
    when (is_null book) (res_redirect "/catalog/books") ;;
    res_render "book_delete"
      [("title", PString "Delete Book");
       ("book_instances", PInstances allBookInstances);
       ("book", PBook book)]).

Definition book_delete_post (id bookid : oid) : world -> world :=
  asyncHandler (
    book <- read (fun s => findById Book._id (books s) id) ;;
    allBookInstances <- read (fun s => map (populate_instance s) (instances_of_book s id)) ;;
    if is_null book then
      res_redirect "/catalog/books"
    else if (0 <? length allBookInstances)%nat then
      res_render "book_delete"
        [("title", PString "Delete Book");
         ("book", PBook book);
         ("book_instances", PInstances allBookInstances)]
    else
      write (fun s => set_books s (findByIdAndRemove Book._id (books s) bookid)) ;;
      res_redirect "/catalog/books").

(** The nested loop of [book_update_get]. *)
Definition mark_populated (book : Book.populated) (allGenres : list Genre.t)
  : list (Genre.t * checked) :=
  map (fun genre =>
         (genre,
          if existsb (fun book_g => Genre._id genre =? Genre._id book_g)
                     (Book.genre_docs book)
          then checked_true else unchecked))
      allGenres.

Definition book_update_get (id : oid) : world -> world :=
  asyncHandler (
    book <- read (fun s => option_map (populate_book s) (findById Book._id (books s) id)) ;;
    allAuthors <- read authors ;;
    allGenres <- read genres ;;
    match book with
    | None =>
        let error := new_Error "Book not found." in
        let error := set_status error 404 in
        (* [return next(err)]: no variable [err] is in scope *)
        err <- throw (ReferenceError "err") ;;
        next err
    | Some b =>
        res_render "book_form"
          [("title", PString "Update Book");
           ("authors", PAuthors allAuthors);
           ("genres", PGenres (mark_populated b allGenres));
           ("book", PBookPopulated book)]
    end).

(** [!x] for the [genre] field: an empty string and a missing field are
    falsy, an array is truthy. *)
Definition js_not (g : genre_field) : bool :=
  match g with
  | genre_undefined => true
  | genre_string s => s =? ""
  | genre_array _ => false
  end.

(** [b instanceof Array] for a boolean [b]. *)
Definition boolean_instanceof_Array (b : bool) : bool := false.

(** The first middleware of [book_update_post]; its test is
    [!req.body.genre instanceof Array], that is
    [(!req.body.genre) instanceof Array]. *)
Definition book_update_genre_to_array (g : genre_field) : genre_field :=
  if boolean_instanceof_Array (js_not g) then
    match g with
    | genre_undefined => genre_array []
    | genre_string s => new_Array s
    | genre_array l => genre_array l
    end
  else g.

Definition update_book (id : oid) (b : Book.t) : M (option Book.t) :=
  s <- read (fun s => s) ;;
  let '(old, l) := findByIdAndUpdate Book._id Book.assign (books s) id b in
  write (fun s => set_books s l) ;;
  ret old.

Definition book_update_middlewares (req_body : BookForm.t) : BookForm.t * list verror :=
  book_validate (with_genre book_update_genre_to_array req_body).

Definition book_update_post (id : oid) (req_body : BookForm.t) : world -> world :=
  let '(req_body, errors) := book_update_middlewares req_body in
  asyncHandler (
    let book := new_Book id (BookForm.title req_body) (BookForm.author req_body)
                         (BookForm.summary req_body) (BookForm.isbn req_body)
                         (match BookForm.genre req_body with
                          | genre_undefined => genre_array []
                          | g => g
                          end) in
    if negb (isEmpty errors) then
      allAuthors <- read authors ;;
      allGenres <- read genres ;;
      res_render "book_form"
        [("title", PString "Update Book");
         ("book", PBook (Some book));
         ("genres", PGenres (mark_included book allGenres));
         ("authors", PAuthors allAuthors);
         ("errors", PErrors errors)]
    else
      updatedBook <- update_book id book ;;
      url <- url_of Book.url updatedBook ;;
      res_redirect url).

(** ** controllers/bookInstanceController.js *)

Definition bookinstance_detail (id : oid) : world -> world :=
  asyncHandler (
    bookInstance <- read (fun s => option_map (populate_instance s)
                                     (findById BookInstance._id (bookinstances s) id)) ;;
    match bookInstance with
    | None =>
        let err := new_Error "Book copy not found" in
        let err := set_status err 404 in
        next err
    | Some i =>
        match BookInstance.book_doc i with
        | None => throw (TypeError_null "title")
        | Some book =>
            res_render "bookinstance_detail"
              [("title", PString ("Book Status for " ++ interpolate (Book.title book)));
               ("bookinstance", PInstance bookInstance)]
        end
    end).

Definition bookinstance_delete_get (id : oid) : world -> world :=
  asyncHandler (
    bookInstance <- read (fun s => option_map (populate_instance s)
                                     (findById BookInstance._id (bookinstances s) id)) ;;
    when (is_null bookInstance) (res_redirect "/catalog/bookinstances") ;;
    res_render "bookinstance_delete"
      [("title", PString "Delete Book Instance");
       ("bookinstance", PInstance bookInstance)]).

(** [bookInstance !== null && bookInstance.status === 'Available']. *)
Definition is_available (bookInstance : option BookInstance.populated) : bool :=
  match bookInstance with
  | None => false
  | Some i =>
      match BookInstance.status (BookInstance.doc i) with
      | Some st => st =? "Available"
      | None => false
      end
  end.

Definition bookinstance_delete_post (bookinstanceid : oid) : world -> world :=
  asyncHandler (
    bookInstance <- read (fun s => option_map (populate_instance s)
                                     (findById BookInstance._id (bookinstances s)
                                               bookinstanceid)) ;;
    if is_available bookInstance then
      write (fun s => set_bookinstances s
                        (findByIdAndRemove BookInstance._id (bookinstances s)
                                           bookinstanceid)) ;;
      res_redirect "/catalog/bookinstances"
    else
      res_render "bookinstance_delete"
        [("title", PString "Delete Book Instance");
         ("bookinstance", PInstance bookInstance)]).

(** [bookInstance.book.id]. *)
Definition book_id_of (i : BookInstance.populated) : M oid :=
  match BookInstance.book_doc i with
  | Some b => ret (Book._id b)
  | None => throw (TypeError_null "id")
  end.

Definition bookinstance_update_get (id : oid) : world -> world :=
  asyncHandler (
    bookInstance <- read (fun s => option_map (populate_instance s)
                                     (findById BookInstance._id (bookinstances s) id)) ;;
    allBooks <- read books ;;
    match bookInstance with
    | None =>
        let error := new_Error "Book Instance not found." in
        let error := set_status error 404 in
        next error
    | Some i =>
        selected_book <- book_id_of i ;;
        res_render "bookinstance_form"
          [("title", PString "Update Book Instance");
           ("book_list", PBooks allBooks);
           ("bookinstance", PInstance bookInstance);
           ("selected_book", PId selected_book)]
    end).

Definition bookinstance_update_chains : list chain :=
  [ body "book" (Some "A book title must be supplied")
         [Trim; IsLength 1; Escape];
    body "imprint" None
         [optional_checkFalsy; Trim; IsLength 1; Escape];
    body "due_back" None
         [optional_checkFalsy; Trim; IsISO8601; ToDate];
    body "status" (Some "A status must be supplied.")
         [Trim; IsLength 1; Escape] ].

Definition bookinstance_update_validate (b : BookInstanceForm.t)
  : BookInstanceForm.t * list verror :=
  match bookinstance_update_chains with
  | [c1; c2; c3; c4] =>
      let r1 := run_chain c1 (BookInstanceForm.book b) in
      let r2 := run_chain c2 (BookInstanceForm.imprint b) in
      let r3 := run_chain c3 (BookInstanceForm.due_back b) in
      let r4 := run_chain c4 (BookInstanceForm.status b) in
      (BookInstanceForm.mk (fst r1) (fst r2) (fst r3) (fst r4),
       (snd r1 ++ snd r2 ++ snd r3 ++ snd r4)%list)
  | _ => (b, [])
  end.

(** [new BookInstance({ book: book, ... })] with [book] the result of a
    query: the document, when there is one, is kept with the reference. *)
Definition new_BookInstance (_id : oid) (book : option Book.t)
           (imprint status due_back : fval) : BookInstance.populated :=
  BookInstance.mkPopulated
    (BookInstance.mk _id (option_map Book._id book) (cast_string imprint)
                     (cast_string status) (cast_date due_back))
    book.

Definition update_bookinstance (id : oid) (i : BookInstance.t)
  : M (option BookInstance.t) :=
  s <- read (fun s => s) ;;
  let '(old, l) :=
    findByIdAndUpdate BookInstance._id BookInstance.assign (bookinstances s) id i in
  write (fun s => set_bookinstances s l) ;;
  ret old.

Definition bookinstance_update_post (id : oid) (req_body : BookInstanceForm.t)
  : world -> world :=
  let '(req_body, errors) := bookinstance_update_validate req_body in
  asyncHandler (
    book <- read (fun s => findById Book._id (books s)
                                    (toString (BookInstanceForm.book req_body))) ;;
    allBooks <- read books ;;
    let bookInstance :=
      new_BookInstance id book (BookInstanceForm.imprint req_body)
                       (BookInstanceForm.status req_body)
                       (BookInstanceForm.due_back req_body) in
    if negb (isEmpty errors) then
      selected_book <- book_id_of bookInstance ;;
      res_render "bookinstance_form"
        [("title", PString "Update Book Instance");
         ("bookinstance", PInstance (Some bookInstance));
         ("book_list", PBooks allBooks);
         ("selected_book", PId selected_book)]
    else
      updatedBookInstance <- update_bookinstance id (BookInstance.doc bookInstance) ;;
      url <- url_of BookInstance.url updatedBookInstance ;;
      res_redirect url).

End Dates.

(** ** Sorting at the store *)

(** The order of [sort({ path: 1 })] on a String path: a document without
    the path comes first, and two strings are compared code unit by code
    unit. *)
Definition key_leb (a b : option string) : bool :=
  match a, b with
  | None, _ => true
  | Some _, None => false
  | Some x, Some y => String.leb x y
  end.

Section Sorting.

Context {A : Type} (key : A -> option string).

Fixpoint insert_sorted (d : A) (l : list A) : list A :=
  match l with
  | [] => [d]
  | x :: r => if key_leb (key d) (key x) then d :: l else x :: insert_sorted d r
  end.

(** [find({}).sort({ key: 1 })]. *)
Definition sort_by (l : list A) : list A := fold_right insert_sorted [] l.

(** The documents of a list are in ascending order of the key. *)
Definition ascending (l : list A) : Prop :=
  Sorted (fun x y => key_leb (key x) (key y) = true) l.

End Sorting.

(** ** The list views and the create forms *)

(** A handler that is not wrapped in [asyncHandler]. *)
Definition plain (fn : M unit) : world -> world := fun w => snd (fn w).

Definition author_list : world -> world :=
  asyncHandler (
    allAuthors <- read (fun s => sort_by Author.family_name (authors s)) ;;
    res_render "author_list"
      [("title", PString "Author List");
       ("author_list", PAuthors allAuthors)]).

Definition author_create_get : world -> world :=
  plain (res_render "author_form" [("title", PString "Create Author")]).

Definition genre_list : world -> world :=
  asyncHandler (
    allGenres <- read (fun s => sort_by Genre.name (genres s)) ;;
    res_render "genre_list"
      [("title", PString "Genre List");
       ("genre_list", PGenres (map (fun g => (g, unchecked)) allGenres))]).

Definition genre_create_get : world -> world :=
  plain (res_render "genre_form" [("title", PString "Create Genre")]).

Definition book_create_get : world -> world :=
  plain (
    allAuthors <- read authors ;;
    allGenres <- read genres ;;
    res_render "book_form"
      [("title", PString "Create Book");
       ("authors", PAuthors allAuthors);
       ("genres", PGenres (map (fun g => (g, unchecked)) allGenres))]).

Definition bookinstance_list : world -> world :=
  asyncHandler (
    allBookInstances <-
      read (fun s => sort_by (fun i => BookInstance.status (BookInstance.doc i))
                             (map (populate_instance s) (bookinstances s))) ;;
    res_render "bookinstance_list"
      [("title", PString "Book Instance List");
       ("bookinstance_list", PInstances allBookInstances)]).

(** The projection ['title']. *)
Definition title_only (b : Book.t) : Book.brief :=
  Book.mkBrief (Book._id b) (Book.title b) None.

Definition bookinstance_create_get : world -> world :=
  asyncHandler (
    allBooks <- read (fun s => map title_only (books s)) ;;
    res_render "bookinstance_form"
      [("title", PString "Create Instance Form");
       ("book_list", PBriefs allBooks)]).

(** ** Creating an Author *)

Definition author_create_chains (isISO8601 : string -> bool)
           (Date_parse : string -> option string) : list chain :=
  [ body "first_name" None
         [Trim; IsLength 1; Escape; withMessage "First name must be specified."];
    body "family_name" None
         [Trim; IsLength 1; Escape; withMessage "Family name must be specified."];
    body "date_of_birth" None
         [optional_checkFalsy; IsISO8601 isISO8601; ToDate Date_parse;
          withMessage "Invalid date of birth or not specified"];
    body "date_of_death" None
         [optional_checkFalsy; IsISO8601 isISO8601; ToDate Date_parse;
          withMessage "Invalid date of death or not specified"] ].

Definition author_create_validate (isISO8601 : string -> bool)
           (Date_parse : string -> option string) (b : AuthorForm.t)
  : AuthorForm.t * list verror :=
  match author_create_chains isISO8601 Date_parse with
  | [c1; c2; c3; c4] =>
      let r1 := run_chain c1 (AuthorForm.first_name b) in
      let r2 := run_chain c2 (AuthorForm.family_name b) in
      let r3 := run_chain c3 (AuthorForm.date_of_birth b) in
      let r4 := run_chain c4 (AuthorForm.date_of_death b) in
      (AuthorForm.mk (fst r1) (fst r2) (fst r3) (fst r4),
       (snd r1 ++ snd r2 ++ snd r3 ++ snd r4)%list)
  | _ => (b, [])
  end.

(** The schema of models/Author.js: [required: true] and [maxLength: 100]
    on the two names. *)
Definition maxLength (n : nat) (f : option string) : bool :=
  match f with
  | Some s => (String.length s <=? n)%nat
  | None => true
  end.

Definition author_paths_valid (a : Author.t) : bool :=
  path_truthy (Author.first_name a) && maxLength 100 (Author.first_name a)
  && path_truthy (Author.family_name a) && maxLength 100 (Author.family_name a).

Definition maxlength_message (path value : string) : string :=
  "Path `" ++ path ++ "` (`" ++ value ++ "`) is longer than the maximum allowed length (100).".

(** What the schema holds against a name. *)
Definition name_errors (path : string) (f : option string) : list (string * string) :=
  if negb (path_truthy f) then [(path, required_message path)]
  else if negb (maxLength 100 f) then [(path, maxlength_message path (interpolate f))]
  else [].

Definition author_path_errors (a : Author.t) : list (string * string) :=
  (name_errors "first_name" (Author.first_name a)
   ++ name_errors "family_name" (Author.family_name a))%list.

(** [author.save()]: the document is validated against the schema, then
    inserted. *)
Definition save_author (a : Author.t) : M unit :=
  if author_paths_valid a then
    s <- read (fun s => s) ;;
    match insert Author._id (authors s) a with
    | Some l => write (fun s => set_authors s l)
    | None => throw duplicate_key
    end
  else throw (ValidationError "Author" (author_path_errors a)).

Definition author_create_post (isISO8601 : string -> bool)
           (Date_parse : string -> option string)
           (fresh : oid) (req_body : AuthorForm.t) : world -> world :=
  let '(req_body, errors) := author_create_validate isISO8601 Date_parse req_body in
  asyncHandler (
    let author := new_Author Date_parse fresh req_body in
    if negb (isEmpty errors) then
      res_render "author_form"
        [("title", PString "Create Form");
         ("author", PAuthor (Some author));
         ("errors", PErrors errors)]
    else
      save_author author ;;
      res_redirect (Author.url author)).

(** ** Vocabulary of the properties *)

(** No two documents of a collection have the same identity. *)
Definition unique_ids (s : store) : Prop :=
  NoDup (map Author._id (authors s)) /\
  NoDup (map Genre._id (genres s)) /\
  NoDup (map Book._id (books s)) /\
  NoDup (map BookInstance._id (bookinstances s)).

(** The characters that [escape] replaces, the ampersand apart. *)
Definition markup_char (c : ascii) : bool :=
  match nat_of_ascii c with
  | 34 | 39 | 60 | 62 | 47 | 92 | 96 => true
  | _ => false
  end.

Fixpoint no_markup (s : string) : bool :=
  match s with
  | EmptyString => true
  | String c r => negb (markup_char c) && no_markup r
  end.

(** The failure of a date chain
    [optional({ checkFalsy: true }).isISO8601().toDate().withMessage(m)]. *)
Definition date_failure (isISO8601 : string -> bool) (path message : string) (v : fval)
  : list verror :=
  if truthy v && negb (isISO8601 (toString v)) then [mkVerror path message v] else [].

(** ** A small catalogue *)

Definition austen : Author.t :=
  Author.mk "a1" (Some "Jane") (Some "Austen") None None.
Definition novel : Genre.t := Genre.mk "g1" (Some "Novel").
Definition emma : Book.t :=
  Book.mk "b1" (Some "Emma") (Some "a1") (Some "A match-maker errs.") (Some "9780141439587")
          ["g1"].
Definition copy1 : BookInstance.t :=
  BookInstance.mk "i1" (Some "b1") (Some "Penguin, 2003") (Some "Available") None.
Definition copy2 : BookInstance.t :=
  BookInstance.mk "i2" (Some "b1") (Some "Penguin, 2003") (Some "Loaned") None.

Definition shelf : store := mkStore [austen] [novel] [emma] [copy1; copy2].

Definition persuasion : Book.t :=
  Book.mk "b2" (Some "Persuasion") (Some "a1") (Some "A second chance.") (Some "9780141439686")
          ["g1"].

Definition shelley : Author.t :=
  Author.mk "a2" (Some "Mary") (Some "Shelley") None None.

(** Two Authors, one of them with a Book. *)
Definition two_authors : store := mkStore [austen; shelley] [novel] [emma] [copy1; copy2].

(** An Author whose dates are stored. *)
Definition austen_dated : Author.t :=
  Author.mk "a1" (Some "Jane") (Some "Austen")
            (Some (Some "1775-12-16T00:00:00.000Z")) (Some (Some "1817-07-18T00:00:00.000Z")).

(** The no-break space, code unit 160. *)
Definition nbsp : string := String (ascii_of_nat 160) EmptyString.

(** Two Books, one of them with a copy. *)
Definition two_books : store := mkStore [austen] [novel] [emma; persuasion] [copy1].

(** A store in which a copy refers to a Book that is not there. *)
Definition orphan_shelf : store := mkStore [austen] [novel] [persuasion] [copy1].

(** The value a chain [trim().isLength({ min }).escape()] writes back, and
    the failure it reports. *)
Definition sanitize_text (v : fval) : fval := VStr (escape (trim (toString v))).

Definition length_failure (path message : string) (min : nat) (v : fval) : list verror :=
  if isLength min (trim (toString v)) then []
  else [mkVerror path message (VStr (trim (toString v)))].

(** ** What the handlers are expected to do *)

(** "Not found": the only call is [next] with an error of status 404. *)
Definition not_found_signalled (r : store * list call) (s : store) : Prop :=
  exists err, r = (s, [Next err]) /\ e_status err = Some 404.

(** The view rendered by [author_delete_post] and the one rendered by
    [book_delete_post] when deletion is blocked. *)
Definition author_delete_view (s : store) (id : oid) : call :=
  Render "author_delete"
    [("title", PString "Delete Author");
     ("author", PAuthor (findById Author._id (authors s) id));
     ("author_books", PBriefs (map Book.title_summary (books_by_author s id)))].

Definition book_delete_view (s : store) (id : oid) : call :=
  Render "book_delete"
    [("title", PString "Delete Book");
     ("book", PBook (findById Book._id (books s) id));
     ("book_instances", PInstances (map (populate_instance s) (instances_of_book s id)))].

(** Deletion of a Book blocked by its copies, read for every request: when
    copies refer to the identity, the store is left as it is and the
    confirmation view is rendered. *)
Definition book_delete_blocked (s : store) (id bookid : oid) : Prop :=
  instances_of_book s id <> [] ->
  serve (book_delete_post id bookid) s = (s, [book_delete_view s id]).

(** The full name read with "absent" as "not set": the empty string when a
    name is not set, and otherwise the two names around a comma. *)
Definition full_name_by_absence (a : Author.t) : Prop :=
  ((Author.first_name a = None \/ Author.family_name a = None) -> Author.name a = "") /\
  (forall first family,
      Author.first_name a = Some first -> Author.family_name a = Some family ->
      Author.name a = family ++ ", " ++ first).

(** Whether the data handed to a view has the key [k]. *)
Definition has_key (k : string) (data : locals) : bool :=
  existsb (fun kv => fst kv =? k) data.

Arguments findById : simpl never.
Arguments books_by_author : simpl never.
Arguments books_with_genre : simpl never.
Arguments instances_of_book : simpl never.
Arguments populate_instance : simpl never.
Arguments populate_book : simpl never.
Arguments findOne_genre_by_name : simpl never.
Arguments trim : simpl never.
Arguments escape : simpl never.
Arguments isLength : simpl never.

(** * Properties *)

(** ** Collections *)

Lemma findById_Some_In {A} (id_of : A -> oid) (c : list A) (id : oid) (d : A) :
  findById id_of c id = Some d -> In d c /\ id_of d = id.
Proof.
  unfold findById. intros H.
  apply find_some in H. destruct H as [Hin Heq].
  split; [assumption | now apply String.eqb_eq].
Qed.

Lemma findById_None {A} (id_of : A -> oid) (c : list A) (id : oid) :
  findById id_of c id = None -> forall d, In d c -> id_of d <> id.
Proof.
  unfold findById. intros H d Hin Heq.
  pose proof (find_none _ _ H d Hin) as Hf. cbn in Hf.
  apply String.eqb_neq in Hf. contradiction.
Qed.

Lemma findByIdAndRemove_absent {A} (id_of : A -> oid) (c : list A) (id : oid) :
  findById id_of c id = None -> findByIdAndRemove id_of c id = c.
Proof.
  unfold findById. induction c as [|d r IH]; cbn; [reflexivity|].
  destruct (id_of d =? id); [discriminate|].
  intros H. now rewrite IH.
Qed.

Lemma findByIdAndRemove_length {A} (id_of : A -> oid) (c : list A) (id : oid) (d : A) :
  findById id_of c id = Some d ->
  S (length (findByIdAndRemove id_of c id)) = length c.
Proof.
  unfold findById. induction c as [|x r IH]; cbn; [discriminate|].
  destruct (id_of x =? id); [reflexivity|].
  intros H. cbn. f_equal. now apply IH.
Qed.

Lemma findByIdAndRemove_incl {A} (id_of : A -> oid) (c : list A) (id : oid) :
  incl (findByIdAndRemove id_of c id) c.
Proof.
  induction c as [|x r IH]; cbn; [apply incl_refl|].
  destruct (id_of x =? id).
  - apply incl_tl, incl_refl.
  - intros y [->|Hy]; [now left | right; now apply IH].
Qed.

(** ** The sanitizers *)

Lemma escape_char_not_empty (c : ascii) : escape_char c <> "".
Proof.
  destruct c as [[] [] [] [] [] [] [] []]; cbn; discriminate.
Qed.

Lemma escape_empty (s : string) : escape s = "" -> s = "".
Proof.
  destruct s as [|c r]; [reflexivity|].
  change (escape (String c r)) with (escape_char c ++ escape r).
  intros H. destruct (escape_char c) eqn:E.
  - now apply escape_char_not_empty in E.
  - discriminate H.
Qed.

Lemma isLength_not_empty (n : nat) (s : string) :
  isLength (S n) s = true -> s <> "".
Proof.
  unfold isLength. intros H ->. cbn in H. discriminate.
Qed.

(** A chain [trim().isLength({ min }).escape()]: the value written back is
    the trimmed and escaped one; the test is made on the trimmed one. *)
Lemma run_trim_isLength_escape (path : string) (message : option string)
      (min : nat) (v : fval) :
  run_chain (body path message [Trim; IsLength min; Escape]) v =
  (sanitize_text v,
   length_failure path (match message with Some m => m | None => invalid_value end) min v).
Proof.
  unfold run_chain, sanitize_text, length_failure. cbn.
  destruct (isLength min (trim (toString v))); reflexivity.
Qed.

(** The no-break space is trimmed like the space. *)
Lemma trim_no_break_space :
  trim (nbsp ++ " Novel" ++ nbsp) = "Novel" /\ trim nbsp = "".
Proof. split; reflexivity. Qed.

(** ** Running a handler *)

Ltac run_handler :=
  unfold serve, asyncHandler, bind, read, write, emit, when,
         res_render, res_redirect, next, ret, throw, url_of; cbn.

(** ** The Author model *)

(** C4, as amended.  The derived full name is the empty string when
    [first_name] or [family_name] is absent or is the empty string, and
    otherwise [family_name], a comma and a space, and [first_name]; Jane
    Austen's is "Austen, Jane". *)
Theorem author_name_spec (a : Author.t) :
  ((path_truthy (Author.first_name a) = false \/
    path_truthy (Author.family_name a) = false) -> Author.name a = "") /\
  (forall first family,
      Author.first_name a = Some first -> first <> "" ->
      Author.family_name a = Some family -> family <> "" ->
      Author.name a = family ++ ", " ++ first) /\
  Author.name austen = "Austen, Jane".
Proof.
  split; [|split].
  - unfold Author.name. intros [H|H]; rewrite H; cbn; [reflexivity|].
    now rewrite andb_false_r, orb_true_r.
  - intros first family Hf Hne Hl Hnl. unfold Author.name.
    rewrite Hf, Hl. cbn.
    apply String.eqb_neq in Hne, Hnl. now rewrite Hne, Hnl.
  - reflexivity.
Qed.

Lemma author_name_spec_witness :
  Author.name (Author.mk "a2" (Some "Mary") (Some "Shelley") None None) = "Shelley, Mary"
  /\ Author.name (Author.mk "a3" None (Some "Homer") None None) = "".
Proof.
  split.
  - apply (proj1 (proj2 (author_name_spec
                           (Author.mk "a2" (Some "Mary") (Some "Shelley") None None)))
             "Mary" "Shelley"); [reflexivity | discriminate | reflexivity | discriminate].
  - apply (proj1 (author_name_spec (Author.mk "a3" None (Some "Homer") None None))).
    left. reflexivity.
Defined.

(** C4, as stated, fails on an Author whose [first_name] is set to the empty
    string: both names are present, and the full name is empty, not
    "Austen, ". *)
Lemma author_name_empty_first_name :
  ~ full_name_by_absence (Author.mk "a1" (Some "") (Some "Austen") None None).
Proof.
  intros [_ H]. specialize (H "" "Austen" eq_refl eq_refl). discriminate H.
Qed.

(** Such an Author is built by [author_update_post] when the first name is
    submitted blank, and handed to the form. *)
Lemma author_with_empty_first_name_rendered
      (isISO8601 : string -> bool) (Date_parse : string -> option string) :
  serve (author_update_post isISO8601 Date_parse "a1"
           (AuthorForm.mk (VStr " ") (VStr "Austen") VUndefined VUndefined)) shelf =
  (shelf,
   [Render "author_form"
      [("title", PString "Update Author");
       ("author", PAuthor (Some (Author.mk "a1" (Some "") (Some "Austen") None None)));
       ("errors",
        PErrors [mkVerror "first_name" "First Name must be provided." (VStr "")])]]).
Proof. reflexivity. Qed.

(** ** Detail views *)

(** C5.  For each of the four kinds, the detail view of an identity that
    resolves to no record makes one call, [next] with an error of status
    404, and leaves the store as it is: no page is rendered. *)
Theorem detail_not_found_404 (s : store) (id : oid) :
  (findById Author._id (authors s) id = None ->
   not_found_signalled (serve (author_detail id) s) s) /\
  (findById Genre._id (genres s) id = None ->
   not_found_signalled (serve (genre_detail id) s) s) /\
  (findById Book._id (books s) id = None ->
   not_found_signalled (serve (book_detail id) s) s) /\
  (findById BookInstance._id (bookinstances s) id = None ->
   not_found_signalled (serve (bookinstance_detail id) s) s).
Proof.
  unfold not_found_signalled.
  repeat split; intros H.
  - unfold author_detail. run_handler. rewrite H. cbn.
    destruct s; eexists; split; reflexivity.
  - unfold genre_detail. run_handler. rewrite H. cbn.
    destruct s; eexists; split; reflexivity.
  - unfold book_detail. run_handler. rewrite H. cbn.
    destruct s; eexists; split; reflexivity.
  - unfold bookinstance_detail. run_handler. rewrite H. cbn.
    destruct s; eexists; split; reflexivity.
Qed.

Lemma detail_not_found_404_witness :
  not_found_signalled (serve (author_detail "zz") shelf) shelf /\
  not_found_signalled (serve (genre_detail "zz") shelf) shelf /\
  not_found_signalled (serve (book_detail "zz") shelf) shelf /\
  not_found_signalled (serve (bookinstance_detail "zz") shelf) shelf.
Proof.
  destruct (detail_not_found_404 shelf "zz") as (Ha & Hg & Hb & Hi).
  repeat split; [apply Ha | apply Hg | apply Hb | apply Hi]; reflexivity.
Defined.

(** The error handler of app.js answers such an error with status 404. *)
Lemma not_found_answer (s : store) (r : store * list call) :
  not_found_signalled r s ->
  exists message, answer (snd r) = Some (ErrorPage 404 message).
Proof.
  intros (err & -> & Hst). exists (e_message err).
  cbn. unfold error_status. now rewrite Hst.
Qed.

(** ** Update forms *)

(** For an Author, a Genre and a BookInstance, the update form of an
    identity that resolves to no record signals "not found". *)
Lemma update_get_not_found_404 (s : store) (id : oid) :
  (findById Author._id (authors s) id = None ->
   not_found_signalled (serve (author_update_get id) s) s) /\
  (findById Genre._id (genres s) id = None ->
   not_found_signalled (serve (genre_update_get id) s) s) /\
  (findById BookInstance._id (bookinstances s) id = None ->
   not_found_signalled (serve (bookinstance_update_get id) s) s).
Proof.
  unfold not_found_signalled.
  repeat split; intros H.
  - unfold author_update_get. run_handler. rewrite H. cbn.
    destruct s; eexists; split; reflexivity.
  - unfold genre_update_get. run_handler. rewrite H. cbn.
    destruct s; eexists; split; reflexivity.
  - unfold bookinstance_update_get. run_handler. rewrite H. cbn.
    destruct s; eexists; split; reflexivity.
Qed.

(** C6, for a Book.  The update form of an identity that resolves to no
    Book builds the error of status 404 and then reads the variable [err],
    which does not exist: the error that reaches [next] is the
    ReferenceError, it carries no status, and the error handler answers
    with status 500.  The form is not rendered and the store is left as it
    is. *)
Theorem book_update_get_not_found (s : store) (id : oid) :
  findById Book._id (books s) id = None ->
  serve (book_update_get id) s = (s, [Next (ReferenceError "err")]) /\
  e_status (ReferenceError "err") = None /\
  answer (snd (serve (book_update_get id) s)) =
    Some (ErrorPage 500 "err is not defined") /\
  ~ not_found_signalled (serve (book_update_get id) s) s.
Proof.
  intros H.
  assert (E : serve (book_update_get id) s = (s, [Next (ReferenceError "err")])).
  { unfold book_update_get. run_handler. rewrite H. cbn. now destruct s. }
  rewrite E. repeat split.
  intros (err & Herr & Hst). inversion Herr; subst err. discriminate Hst.
Qed.

Lemma book_update_get_not_found_witness :
  serve (book_update_get "zz") shelf = (shelf, [Next (ReferenceError "err")]).
Proof.
  apply (book_update_get_not_found shelf "zz"). reflexivity.
Defined.

(** ** Delete confirmations *)

Lemma genre_delete_get_missing (s : store) (id : oid) :
  findById Genre._id (genres s) id = None ->
  serve (genre_delete_get id) s =
  (s, [Redirect "/catalog/genres";
       Render "genre_delete"
         [("title", PString "Delete Genre");
          ("genre", PGenre None);
          ("genre_books", PBooks (books_with_genre s id))]]).
Proof.
  intros H. unfold genre_delete_get. run_handler. rewrite H. cbn. now destruct s.
Qed.

(** C7, as the handlers run.  For each of the four kinds, the delete
    confirmation of an identity that resolves to no record calls
    [res.redirect] to the list view and then, the handler not having
    returned, [res.render] with the confirmation template and a null
    record. *)
Theorem delete_get_missing_record (s : store) (id : oid) :
  (findById Genre._id (genres s) id = None ->
   serve (genre_delete_get id) s =
   (s, [Redirect "/catalog/genres";
        Render "genre_delete"
          [("title", PString "Delete Genre");
           ("genre", PGenre None);
           ("genre_books", PBooks (books_with_genre s id))]])) /\
  (findById Author._id (authors s) id = None ->
   serve (author_delete_get id) s =
   (s, [Redirect "/catalog/authors";
        Render "author_delete"
          [("title", PString "Delete Author");
           ("author", PAuthor None);
           ("author_books", PBriefs (map Book.title_summary (books_by_author s id)))]])) /\
  (findById Book._id (books s) id = None ->
   serve (book_delete_get id) s =
   (s, [Redirect "/catalog/books";
        Render "book_delete"
          [("title", PString "Delete Book");
           ("book_instances",
            PInstances (map (populate_instance s) (instances_of_book s id)));
           ("book", PBook None)]])) /\
  (findById BookInstance._id (bookinstances s) id = None ->
   serve (bookinstance_delete_get id) s =
   (s, [Redirect "/catalog/bookinstances";
        Render "bookinstance_delete"
          [("title", PString "Delete Book Instance");
           ("bookinstance", PInstance None)]])).
Proof.
  repeat split; intros H.
  - now apply genre_delete_get_missing.
  - unfold author_delete_get. run_handler. rewrite H. cbn. now destruct s.
  - unfold book_delete_get. run_handler. rewrite H. cbn. now destruct s.
  - unfold bookinstance_delete_get. run_handler. rewrite H. cbn. now destruct s.
Qed.

Lemma delete_get_missing_record_witness :
  serve (genre_delete_get "zz") shelf =
  (shelf, [Redirect "/catalog/genres";
           Render "genre_delete"
             [("title", PString "Delete Genre");
              ("genre", PGenre None);
              ("genre_books", PBooks [])]]).
Proof.
  apply (proj1 (delete_get_missing_record shelf "zz")). reflexivity.
Defined.

(** The client is answered by the redirect, the first of the two calls. *)
Lemma genre_delete_get_missing_answer (s : store) (id : oid) :
  findById Genre._id (genres s) id = None ->
  answer (snd (serve (genre_delete_get id) s)) = Some (Found "/catalog/genres").
Proof.
  intros H. now rewrite (genre_delete_get_missing s id H).
Qed.

(** ** Deleting a BookInstance *)

Lemma doc_populate_instance (s : store) (i : BookInstance.t) :
  BookInstance.doc (populate_instance s i) = i.
Proof. reflexivity. Qed.

Lemma bookinstance_delete_post_available (s : store) (bookinstanceid : oid)
      (i : BookInstance.t) :
  findById BookInstance._id (bookinstances s) bookinstanceid = Some i ->
  BookInstance.status i = Some "Available" ->
  serve (bookinstance_delete_post bookinstanceid) s =
  (set_bookinstances s
     (findByIdAndRemove BookInstance._id (bookinstances s) bookinstanceid),
   [Redirect "/catalog/bookinstances"]).
Proof.
  intros Hi Hst. unfold bookinstance_delete_post. run_handler.
  rewrite Hi. cbn. rewrite doc_populate_instance, Hst. cbn.
  reflexivity.
Qed.

Lemma bookinstance_delete_post_otherwise (s : store) (bookinstanceid : oid) :
  (findById BookInstance._id (bookinstances s) bookinstanceid = None \/
   exists i, findById BookInstance._id (bookinstances s) bookinstanceid = Some i /\
             BookInstance.status i <> Some "Available") ->
  serve (bookinstance_delete_post bookinstanceid) s =
  (s, [Render "bookinstance_delete"
         [("title", PString "Delete Book Instance");
          ("bookinstance",
           PInstance (option_map (populate_instance s)
                        (findById BookInstance._id (bookinstances s) bookinstanceid)))]]).
Proof.
  intros H. unfold bookinstance_delete_post. run_handler.
  destruct H as [H | (i & H & Hst)]; rewrite H; cbn.
  - now destruct s.
  - rewrite doc_populate_instance.
    destruct (BookInstance.status i) as [st|] eqn:E; cbn.
    + destruct (st =? "Available") eqn:Eq.
      * apply String.eqb_eq in Eq. subst st. contradiction.
      * cbn. now destruct s.
    + now destruct s.
Qed.

(** C10.  On delete-submit of a BookInstance, when the instance of the
    submitted identity exists and its status is 'Available', it is removed
    and the answer is a redirect to the list of instances; when there is no
    such instance, or its status is anything else, the store is left as it
    is and the confirmation view is rendered. *)
Theorem bookinstance_delete_post_spec (s : store) (bookinstanceid : oid) :
  (forall i,
      findById BookInstance._id (bookinstances s) bookinstanceid = Some i ->
      BookInstance.status i = Some "Available" ->
      serve (bookinstance_delete_post bookinstanceid) s =
      (set_bookinstances s
         (findByIdAndRemove BookInstance._id (bookinstances s) bookinstanceid),
       [Redirect "/catalog/bookinstances"])) /\
  ((findById BookInstance._id (bookinstances s) bookinstanceid = None \/
    exists i, findById BookInstance._id (bookinstances s) bookinstanceid = Some i /\
              BookInstance.status i <> Some "Available") ->
   serve (bookinstance_delete_post bookinstanceid) s =
   (s, [Render "bookinstance_delete"
          [("title", PString "Delete Book Instance");
           ("bookinstance",
            PInstance (option_map (populate_instance s)
                         (findById BookInstance._id (bookinstances s) bookinstanceid)))]])).
Proof.
  split.
  - intros i. apply bookinstance_delete_post_available.
  - apply bookinstance_delete_post_otherwise.
Qed.

Lemma bookinstance_delete_post_spec_witness :
  serve (bookinstance_delete_post "i1") shelf =
  (mkStore [austen] [novel] [emma] [copy2], [Redirect "/catalog/bookinstances"])
  /\ fst (serve (bookinstance_delete_post "i2") shelf) = shelf
  /\ fst (serve (bookinstance_delete_post "zz") shelf) = shelf.
Proof.
  destruct (bookinstance_delete_post_spec shelf "i1") as [H1 _].
  destruct (bookinstance_delete_post_spec shelf "i2") as [_ H2].
  destruct (bookinstance_delete_post_spec shelf "zz") as [_ H3].
  split; [|split].
  - apply (H1 copy1); reflexivity.
  - rewrite H2; [reflexivity|]. right. exists copy2. split; [reflexivity | discriminate].
  - rewrite H3; [reflexivity|]. left. reflexivity.
Defined.

(** The removal takes exactly one document out of the collection and
    touches no other collection. *)
Lemma bookinstance_delete_post_removes_one (s : store) (bookinstanceid : oid)
      (i : BookInstance.t) :
  findById BookInstance._id (bookinstances s) bookinstanceid = Some i ->
  BookInstance.status i = Some "Available" ->
  let s' := fst (serve (bookinstance_delete_post bookinstanceid) s) in
  S (length (bookinstances s')) = length (bookinstances s) /\
  incl (bookinstances s') (bookinstances s) /\
  authors s' = authors s /\ genres s' = genres s /\ books s' = books s.
Proof.
  intros Hi Hst.
  rewrite (bookinstance_delete_post_available s bookinstanceid i Hi Hst).
  cbn. repeat split.
  - now apply findByIdAndRemove_length with (d := i).
  - apply findByIdAndRemove_incl.
Qed.

(** ** Deleting an Author or a Book *)

Lemma author_delete_post_blocked (s : store) (id authorid : oid) :
  books_by_author s id <> [] ->
  serve (author_delete_post id authorid) s = (s, [author_delete_view s id]).
Proof.
  intros H. unfold author_delete_post, author_delete_view. run_handler.
  destruct (books_by_author s id); [contradiction|].
  run_handler. now destruct s.
Qed.

Lemma book_delete_post_blocked (s : store) (id bookid : oid) (b : Book.t) :
  findById Book._id (books s) id = Some b ->
  instances_of_book s id <> [] ->
  serve (book_delete_post id bookid) s = (s, [book_delete_view s id]).
Proof.
  intros Hb H. unfold book_delete_post, book_delete_view. run_handler.
  rewrite Hb. cbn.
  destruct (instances_of_book s id); [contradiction|].
  run_handler. now destruct s.
Qed.

Lemma book_delete_post_missing (s : store) (id bookid : oid) :
  findById Book._id (books s) id = None ->
  serve (book_delete_post id bookid) s = (s, [Redirect "/catalog/books"]).
Proof.
  intros Hb. unfold book_delete_post. run_handler.
  rewrite Hb. cbn. now destruct s.
Qed.

(** The dependents that block a deletion are those of the identity of the
    URL.  On delete-submit of an Author, when Books refer to that
    identity, the store is left as it is and the confirmation view is
    rendered with those Books.  On delete-submit of a Book, when
    BookInstances refer to that identity, the store is left as it is; the
    confirmation view is rendered with those instances when the Book
    exists, and the answer is a redirect to the list of Books when it does
    not. *)
Lemma delete_post_blocked_by_dependents (s : store) (id formid : oid) :
  (books_by_author s id <> [] ->
   serve (author_delete_post id formid) s = (s, [author_delete_view s id])) /\
  (instances_of_book s id <> [] ->
   (forall b, findById Book._id (books s) id = Some b ->
              serve (book_delete_post id formid) s = (s, [book_delete_view s id])) /\
   (findById Book._id (books s) id = None ->
    serve (book_delete_post id formid) s = (s, [Redirect "/catalog/books"]))).
Proof.
  split; [apply author_delete_post_blocked|].
  intros H. split.
  - intros b Hb. now apply book_delete_post_blocked with (b := b).
  - apply book_delete_post_missing.
Qed.

Lemma delete_post_blocked_by_dependents_witness :
  serve (author_delete_post "a1" "a1") shelf = (shelf, [author_delete_view shelf "a1"]) /\
  serve (book_delete_post "b1" "b1") shelf = (shelf, [book_delete_view shelf "b1"]) /\
  serve (book_delete_post "b1" "b1") orphan_shelf = (orphan_shelf, [Redirect "/catalog/books"]).
Proof.
  split; [|split].
  - apply (proj1 (delete_post_blocked_by_dependents shelf "a1" "a1")). discriminate.
  - apply (proj2 (delete_post_blocked_by_dependents shelf "b1" "b1")) with (b := emma);
      [discriminate | reflexivity].
  - apply (proj2 (delete_post_blocked_by_dependents orphan_shelf "b1" "b1"));
      [discriminate | reflexivity].
Defined.

(** On a store in which a copy refers to a Book that is not there, the
    guard on the missing Book answers first: the copy depends on the
    identity, and the answer is a redirect, not the confirmation view. *)
Lemma book_delete_post_orphan_copy :
  ~ book_delete_blocked orphan_shelf "b1" "b1".
Proof.
  unfold book_delete_blocked. intros H.
  assert (Hdep : instances_of_book orphan_shelf "b1" <> []) by discriminate.
  specialize (H Hdep).
  rewrite (book_delete_post_missing orphan_shelf "b1" "b1" eq_refl) in H.
  discriminate H.
Qed.

(** Such a store is reached by a request: the copies are looked up under
    the identity of the URL, and the Book that leaves the store is the one
    named in the form. *)
Lemma orphan_shelf_reached :
  serve (book_delete_post "b2" "b1") two_books = (orphan_shelf, [Redirect "/catalog/books"]).
Proof. reflexivity. Qed.

(** C1, on requests whose form names another record than their URL.  The
    Book "b1" has a copy and the Book "b2" has none: the delete-submit sent
    to the URL of "b2" with "b1" in the form finds no copy under "b2" and
    removes "b1", whose copy is left referring to a Book that is gone.  The
    Author "a1" has a Book and the Author "a2" has none: the delete-submit
    sent to the URL of "a2" with "a1" in the form removes "a1", to whom the
    Book still refers.  In both cases the store is changed and the answer
    is a redirect to the list view, although records depend on the record
    that is deleted. *)
Theorem delete_post_removes_record_with_dependents :
  (findById Book._id (books two_books) "b1" = Some emma /\
   instances_of_book two_books "b1" = [copy1] /\
   instances_of_book two_books "b2" = [] /\
   serve (book_delete_post "b2" "b1") two_books =
     (mkStore [austen] [novel] [persuasion] [copy1], [Redirect "/catalog/books"]) /\
   findById Book._id [persuasion] "b1" = None) /\
  (findById Author._id (authors two_authors) "a1" = Some austen /\
   books_by_author two_authors "a1" = [emma] /\
   books_by_author two_authors "a2" = [] /\
   serve (author_delete_post "a2" "a1") two_authors =
     (mkStore [shelley] [novel] [emma] [copy1; copy2], [Redirect "/catalog/authors"]) /\
   findById Author._id [shelley] "a1" = None).
Proof.
  split; repeat apply conj; reflexivity.
Qed.

(** ** Creating a Genre *)

Lemma findOne_genre_Some (s : store) (n : string) (g : Genre.t) :
  findOne_genre_by_name s (VStr n) = Some g ->
  In g (genres s) /\ Genre.name g = Some n.
Proof.
  unfold findOne_genre_by_name. intros H.
  apply find_some in H. destruct H as [Hin Hn].
  split; [assumption|].
  destruct (Genre.name g) as [m|]; [|discriminate].
  apply String.eqb_eq in Hn. now subst m.
Qed.

Lemma findOne_genre_None (s : store) (n : string) :
  (forall g, In g (genres s) -> Genre.name g <> Some n) ->
  findOne_genre_by_name s (VStr n) = None.
Proof.
  intros H. destruct (findOne_genre_by_name s (VStr n)) as [g|] eqn:E; [|reflexivity].
  apply findOne_genre_Some in E. destruct E as [Hin Hn].
  now apply H in Hin.
Qed.

Lemma findOne_genre_exists (s : store) (n : string) :
  (exists g, In g (genres s) /\ Genre.name g = Some n) ->
  exists g, findOne_genre_by_name s (VStr n) = Some g.
Proof.
  intros (g0 & Hin & Hn).
  destruct (findOne_genre_by_name s (VStr n)) as [g|] eqn:E; [now exists g|].
  unfold findOne_genre_by_name in E.
  pose proof (find_none _ _ E g0 Hin) as Hf. cbn in Hf.
  rewrite Hn, String.eqb_refl in Hf. discriminate.
Qed.

Lemma sanitized_not_empty (n : nat) (s : string) :
  isLength (S n) (trim s) = true -> (escape (trim s) =? "") = false.
Proof.
  intros H. apply String.eqb_neq. intros E.
  apply escape_empty in E. now apply isLength_not_empty in H.
Qed.

Lemma genre_create_post_existing (s : store) (fresh : oid) (req_body : GenreForm.t)
      (g : Genre.t) :
  isLength 3 (trim (toString (GenreForm.name req_body))) = true ->
  findOne_genre_by_name s (sanitize_text (GenreForm.name req_body)) = Some g ->
  serve (genre_create_post fresh req_body) s = (s, [Redirect (Genre.url g)]).
Proof.
  intros Hlen Hfind. unfold genre_create_post, genre_create_chain.
  rewrite run_trim_isLength_escape. unfold length_failure. rewrite Hlen.
  run_handler. rewrite Hfind. cbn. now destruct s.
Qed.

Lemma genre_create_post_new (s : store) (fresh : oid) (req_body : GenreForm.t) :
  isLength 3 (trim (toString (GenreForm.name req_body))) = true ->
  findOne_genre_by_name s (sanitize_text (GenreForm.name req_body)) = None ->
  findById Genre._id (genres s) fresh = None ->
  let genre := Genre.mk fresh (Some (escape (trim (toString (GenreForm.name req_body))))) in
  serve (genre_create_post fresh req_body) s =
  (set_genres s (genres s ++ [genre]), [Redirect (Genre.url genre)]).
Proof.
  intros Hlen Hfind Hfresh. unfold genre_create_post, genre_create_chain.
  rewrite run_trim_isLength_escape. unfold length_failure. rewrite Hlen.
  run_handler. rewrite Hfind. cbn.
  unfold save_genre, genre_paths_present, new_Genre, sanitize_text. cbn.
  rewrite (sanitized_not_empty _ _ Hlen). cbn.
  unfold insert. run_handler. rewrite Hfresh. reflexivity.
Qed.

Lemma genre_create_chain_passes (v : fval) :
  failures genre_create_chain v = [] ->
  isLength 3 (trim (toString v)) = true.
Proof.
  unfold failures, genre_create_chain. rewrite run_trim_isLength_escape.
  unfold length_failure. cbn.
  destruct (isLength 3 (trim (toString v))); [reflexivity | discriminate].
Qed.

Lemma genre_create_chain_sanitized (v : fval) :
  sanitized genre_create_chain v = VStr (escape (trim (toString v))).
Proof.
  unfold sanitized, genre_create_chain. now rewrite run_trim_isLength_escape.
Qed.

(** C2.  On create-submit of a Genre whose name passes the validation
    chain, the name left in the body is the trimmed and escaped one.  When
    a Genre of the store has that name, the store is left as it is and the
    answer is a redirect to the canonical path of such a Genre; when none
    has it, a Genre of that name is added to the store under the new
    identity (which no Genre of the store has) and the answer is a
    redirect to its canonical path. *)
Theorem genre_create_post_spec (s : store) (fresh : oid) (req_body : GenreForm.t) :
  let raw := GenreForm.name req_body in
  let name := escape (trim (toString raw)) in
  failures genre_create_chain raw = [] ->
  sanitized genre_create_chain raw = VStr name /\
  ((exists g, In g (genres s) /\ Genre.name g = Some name) ->
   exists g, In g (genres s) /\ Genre.name g = Some name /\
             serve (genre_create_post fresh req_body) s = (s, [Redirect (Genre.url g)])) /\
  ((forall g, In g (genres s) -> Genre.name g <> Some name) ->
   findById Genre._id (genres s) fresh = None ->
   serve (genre_create_post fresh req_body) s =
   (set_genres s (genres s ++ [Genre.mk fresh (Some name)]),
    [Redirect (Genre.url (Genre.mk fresh (Some name)))])).
Proof.
  intros raw name Hpass.
  pose proof (genre_create_chain_passes raw Hpass) as Hlen.
  split; [apply genre_create_chain_sanitized|]. split.
  - intros Hex. apply findOne_genre_exists in Hex. destruct Hex as [g Hg].
    exists g. destruct (findOne_genre_Some _ _ _ Hg) as [Hin Hn].
    repeat split; try assumption.
    now apply genre_create_post_existing.
  - intros Hnone Hfresh. apply genre_create_post_new; try assumption.
    now apply findOne_genre_None.
Qed.

Lemma genre_create_post_spec_witness :
  serve (genre_create_post "g2" (GenreForm.mk (VStr "  Novel "))) shelf =
    (shelf, [Redirect "/catalog/genre/g1"]) /\
  serve (genre_create_post "g2" (GenreForm.mk (VStr " Poetry"))) shelf =
    (mkStore [austen] [novel; Genre.mk "g2" (Some "Poetry")] [emma] [copy1; copy2],
     [Redirect "/catalog/genre/g2"]).
Proof.
  split.
  - destruct (proj1 (proj2 (genre_create_post_spec shelf "g2"
                              (GenreForm.mk (VStr "  Novel ")) eq_refl)))
      as (g & Hin & Hn & Hs).
    + exists novel. split; [now left | reflexivity].
    + destruct Hin as [<-|[]]. exact Hs.
  - apply (proj2 (proj2 (genre_create_post_spec shelf "g2"
                           (GenreForm.mk (VStr " Poetry")) eq_refl))).
    + intros g [<-|[]]. discriminate.
    + reflexivity.
Defined.

(** ** Creating a Book *)

Lemma length_failure_empty (path message : string) (n : nat) (v : fval) :
  trim (toString v) = "" ->
  length_failure path message (S n) v = [mkVerror path message (VStr "")].
Proof. unfold length_failure. intros ->. reflexivity. Qed.

Lemma book_validate_eq (b : BookForm.t) :
  book_validate b =
  (BookForm.mk (sanitize_text (BookForm.title b)) (sanitize_text (BookForm.author b))
               (sanitize_text (BookForm.summary b)) (sanitize_text (BookForm.isbn b))
               (escape_each (BookForm.genre b)),
   (length_failure "title" "Title must not be empty" 1 (BookForm.title b)
    ++ length_failure "author" "Author must not be empty" 1 (BookForm.author b)
    ++ length_failure "summary" "Summary must not be empty" 1 (BookForm.summary b)
    ++ length_failure "isbn" "ISBN must not be empty" 1 (BookForm.isbn b))%list).
Proof.
  unfold book_validate, book_chains.
  rewrite !run_trim_isLength_escape. reflexivity.
Qed.

(** C3.  On create-submit of a Book whose [title] is empty after trimming,
    the failures start with the message of the field [title], followed by
    those of the other empty fields; the create form is rendered with the
    Book built from the sanitized input (an empty title, the trimmed and
    escaped summary and ISBN, the author when it is not empty, the escaped
    genres), with the genres of that Book marked, and with the failures;
    the store is left as it is. *)
Theorem book_create_post_empty_title (s : store) (fresh : oid) (req_body : BookForm.t) :
  trim (toString (BookForm.title req_body)) = "" ->
  let text := fun v => escape (trim (toString v)) in
  let book :=
    Book.mk fresh (Some "")
            (if text (BookForm.author req_body) =? "" then None
             else Some (text (BookForm.author req_body)))
            (Some (text (BookForm.summary req_body)))
            (Some (text (BookForm.isbn req_body)))
            (match BookForm.genre req_body with
             | genre_undefined => []
             | genre_string g => [escape g]
             | genre_array l => map escape l
             end) in
  let errors :=
    (mkVerror "title" "Title must not be empty" (VStr "")
     :: length_failure "author" "Author must not be empty" 1 (BookForm.author req_body)
     ++ length_failure "summary" "Summary must not be empty" 1 (BookForm.summary req_body)
     ++ length_failure "isbn" "ISBN must not be empty" 1 (BookForm.isbn req_body))%list in
  In (mkVerror "title" "Title must not be empty" (VStr "")) errors /\
  serve (book_create_post fresh req_body) s =
  (s, [Render "book_form"
         [("title", PString "Create Book");
          ("authors", PAuthors (authors s));
          ("genres",
           PGenres (map (fun g => (g, if oid_in (Genre._id g) (Book.genre book)
                                      then checked_string else unchecked))
                        (genres s)));
          ("book", PBook (Some book));
          ("errors", PErrors errors)]]).
Proof.
  intros Htitle text book errors. subst text book errors.
  split; [now left|].
  unfold book_create_post, book_create_middlewares, with_genre.
  rewrite book_validate_eq.
  cbn [BookForm.title BookForm.author BookForm.summary BookForm.isbn BookForm.genre].
  rewrite (length_failure_empty _ _ _ _ Htitle).
  run_handler. unfold mark_included, new_Book, sanitize_text, cast_oid.
  cbn [cast_string Book.genre]. rewrite Htitle.
  change (escape "") with "".
  destruct s, (BookForm.genre req_body); reflexivity.
Qed.

Lemma book_create_post_empty_title_witness :
  serve (book_create_post "b9"
           (BookForm.mk (VStr "   ") (VStr "a1") (VStr "s") (VStr "1")
                        (genre_string "g1"))) shelf
  = (shelf,
     [Render "book_form"
        [("title", PString "Create Book");
         ("authors", PAuthors [austen]);
         ("genres", PGenres [(novel, checked_string)]);
         ("book", PBook (Some (Book.mk "b9" (Some "") (Some "a1") (Some "s") (Some "1")
                                       ["g1"])));
         ("errors", PErrors [mkVerror "title" "Title must not be empty" (VStr "")])]]).
Proof.
  apply (proj2 (book_create_post_empty_title shelf "b9"
                  (BookForm.mk (VStr "   ") (VStr "a1") (VStr "s") (VStr "1")
                               (genre_string "g1"))
                  eq_refl)).
Defined.

(** ** The genre field of the Book forms *)

(** The first middleware of [book_create_post] turns a single value into a
    one-element array and a missing field into the empty array. *)
Lemma book_create_genre_to_array_spec :
  (forall s, book_create_genre_to_array (genre_string s) = genre_array [s]) /\
  book_create_genre_to_array genre_undefined = genre_array [] /\
  (forall l, book_create_genre_to_array (genre_array l) = genre_array l).
Proof. repeat split. Qed.

(** The validation of [book_create_post] runs on the array. *)
Lemma book_create_middlewares_genre (b : BookForm.t) :
  BookForm.genre (fst (book_create_middlewares b)) =
  match BookForm.genre b with
  | genre_undefined => genre_array []
  | genre_string s => genre_array [escape s]
  | genre_array l => genre_array (map escape l)
  end.
Proof.
  unfold book_create_middlewares, with_genre. rewrite book_validate_eq. cbn.
  now destruct (BookForm.genre b).
Qed.

(** A Book created from a single genre value is stored with a one-element
    genre list. *)
Lemma book_create_post_single_genre (s : store) (fresh : oid)
      (title author summary isbn : fval) (g : string) :
  isLength 1 (trim (toString title)) = true ->
  isLength 1 (trim (toString author)) = true ->
  isLength 1 (trim (toString summary)) = true ->
  isLength 1 (trim (toString isbn)) = true ->
  findById Book._id (books s) fresh = None ->
  let book :=
    Book.mk fresh (Some (escape (trim (toString title))))
            (Some (escape (trim (toString author))))
            (Some (escape (trim (toString summary))))
            (Some (escape (trim (toString isbn))))
            [escape g] in
  serve (book_create_post fresh (BookForm.mk title author summary isbn (genre_string g))) s
  = (set_books s (books s ++ [book]), [Redirect (Book.url book)]).
Proof.
  intros Ht Ha Hs Hi Hfresh book. subst book.
  unfold book_create_post, book_create_middlewares, with_genre.
  rewrite book_validate_eq. unfold length_failure.
  cbn [BookForm.title BookForm.author BookForm.summary BookForm.isbn BookForm.genre].
  rewrite Ht, Ha, Hs, Hi. run_handler.
  unfold save_book, book_paths_present, new_Book, sanitize_text. cbn.
  rewrite (sanitized_not_empty 0 _ Ht), (sanitized_not_empty 0 _ Ha),
    (sanitized_not_empty 0 _ Hs), (sanitized_not_empty 0 _ Hi). cbn.
  rewrite (sanitized_not_empty 0 _ Ha). cbn.
  unfold insert. run_handler. rewrite Hfresh. reflexivity.
Qed.

(** C8, for update-submit.  The first middleware of [book_update_post]
    leaves the genre field as it was submitted: a single value is still a
    string and a missing field is still missing when the validation chains
    run, and what they leave in [req.body] is not an array. *)
Theorem book_update_genre_not_normalized (b : BookForm.t) :
  (forall g, book_update_genre_to_array g = g) /\
  book_update_genre_to_array (genre_string "g1") <> genre_array ["g1"] /\
  book_update_genre_to_array genre_undefined <> genre_array [] /\
  BookForm.genre (fst (book_update_middlewares b)) =
  match BookForm.genre b with
  | genre_array l => genre_array (map escape l)
  | g => g
  end.
Proof.
  repeat split; try discriminate.
  unfold book_update_middlewares, with_genre. rewrite book_validate_eq. cbn.
  now destruct (BookForm.genre b).
Qed.

(** ** Update-submit with failures *)

Lemma author_update_post_invalid (isISO8601 : string -> bool)
      (Date_parse : string -> option string)
      (s : store) (id : oid) (req_body : AuthorForm.t) :
  let v := author_update_validate isISO8601 Date_parse req_body in
  snd v <> [] ->
  serve (author_update_post isISO8601 Date_parse id req_body) s =
  (s, [Render "author_form"
         [("title", PString "Update Author");
          ("author", PAuthor (Some (new_Author Date_parse id (fst v))));
          ("errors", PErrors (snd v))]]).
Proof.
  intros v H. subst v. unfold author_update_post.
  destruct (author_update_validate isISO8601 Date_parse req_body) as [b errors].
  cbn in H |- *. destruct errors; [contradiction|].
  run_handler. now destruct s.
Qed.

Lemma genre_update_post_invalid (s : store) (id : oid) (req_body : GenreForm.t) :
  let v := run_chain genre_update_chain (GenreForm.name req_body) in
  snd v <> [] ->
  serve (genre_update_post id req_body) s =
  (s, [Render "genre_form"
         [("title", PString "Update Genre");
          ("genre", PGenre (Some (new_Genre id (fst v))));
          ("errors", PErrors (snd v))]]).
Proof.
  intros v H. subst v. unfold genre_update_post.
  destruct (run_chain genre_update_chain (GenreForm.name req_body)) as [n errors].
  cbn in H |- *. destruct errors; [contradiction|].
  run_handler. now destruct s.
Qed.

Lemma book_update_post_invalid (s : store) (id : oid) (req_body : BookForm.t) :
  let v := book_update_middlewares req_body in
  snd v <> [] ->
  exists book,
    serve (book_update_post id req_body) s =
    (s, [Render "book_form"
           [("title", PString "Update Book");
            ("book", PBook (Some book));
            ("genres", PGenres (mark_included book (genres s)));
            ("authors", PAuthors (authors s));
            ("errors", PErrors (snd v))]]).
Proof.
  intros v H. subst v. unfold book_update_post.
  destruct (book_update_middlewares req_body) as [b errors].
  cbn in H |- *. destruct errors; [contradiction|].
  eexists. run_handler. now destruct s.
Qed.

(** On update-submit of a BookInstance with failures the store is left as
    it is, and no view is given the failures. *)
Lemma bookinstance_update_post_invalid (isISO8601 : string -> bool)
      (Date_parse : string -> option string)
      (s : store) (id : oid) (req_body : BookInstanceForm.t) :
  snd (bookinstance_update_validate isISO8601 Date_parse req_body) <> [] ->
  let r := serve (bookinstance_update_post isISO8601 Date_parse id req_body) s in
  fst r = s /\
  forall view data, In (Render view data) (snd r) -> has_key "errors" data = false.
Proof.
  intros H r. subst r. unfold bookinstance_update_post.
  destruct (bookinstance_update_validate isISO8601 Date_parse req_body) as [b errors].
  cbn in H. destruct errors; [contradiction|].
  run_handler. unfold book_id_of, new_BookInstance. cbn.
  destruct (findById Book._id (books s) (toString (BookInstanceForm.book b))); run_handler.
  - split; [now destruct s|].
    intros view data [E|[]]. inversion E; subst. reflexivity.
  - split; [now destruct s|].
    intros view data [E|[]]. discriminate E.
Qed.

(** C9, for a BookInstance.  The update of the copy "i1" is submitted with
    an empty [status]: the validation fails on [status], the update form is
    rendered with the instance, the list of Books and the selected Book,
    and the failures are not among the data of the view. *)
Theorem bookinstance_update_post_drops_failures
        (isISO8601 : string -> bool) (Date_parse : string -> option string) :
  let req_body :=
    BookInstanceForm.mk (VStr "b1") (VStr "Penguin, 2003") VUndefined (VStr "") in
  snd (bookinstance_update_validate isISO8601 Date_parse req_body) =
    [mkVerror "status" "A status must be supplied." (VStr "")] /\
  serve (bookinstance_update_post isISO8601 Date_parse "i1" req_body) shelf =
  (shelf,
   [Render "bookinstance_form"
      [("title", PString "Update Book Instance");
       ("bookinstance",
        PInstance (Some (BookInstance.mkPopulated
                           (BookInstance.mk "i1" (Some "b1") (Some "Penguin, 2003")
                                            (Some "") None)
                           (Some emma))));
       ("book_list", PBooks [emma]);
       ("selected_book", PId "b1")]]) /\
  forall view data,
    In (Render view data)
       (snd (serve (bookinstance_update_post isISO8601 Date_parse "i1" req_body) shelf)) ->
    has_key "errors" data = false.
Proof.
  intros req_body.
  assert (E : serve (bookinstance_update_post isISO8601 Date_parse "i1" req_body) shelf =
              (shelf,
               [Render "bookinstance_form"
                  [("title", PString "Update Book Instance");
                   ("bookinstance",
                    PInstance (Some (BookInstance.mkPopulated
                                       (BookInstance.mk "i1" (Some "b1")
                                                        (Some "Penguin, 2003")
                                                        (Some "") None)
                                       (Some emma))));
                   ("book_list", PBooks [emma]);
                   ("selected_book", PId "b1")]])) by reflexivity.
  split; [reflexivity|]. split; [exact E|].
  rewrite E. intros view data [H|[]]. inversion H; subst. reflexivity.
Qed.

Lemma bookinstance_update_post_drops_failures_witness :
  has_key "errors"
    [("title", PString "Update Book Instance");
     ("bookinstance",
      PInstance (Some (BookInstance.mkPopulated
                         (BookInstance.mk "i1" (Some "b1") (Some "Penguin, 2003")
                                          (Some "") None)
                         (Some emma))));
     ("book_list", PBooks [emma]);
     ("selected_book", PId "b1")] = false.
Proof.
  apply (proj2 (proj2 (bookinstance_update_post_drops_failures
                         (fun _ => true) (fun _ => None))) "bookinstance_form").
  left. reflexivity.
Defined.

(** * Further properties *)

(** ** Collections, continued *)

Lemma findById_None_not_In {A} (id_of : A -> oid) (c : list A) (id : oid) :
  findById id_of c id = None -> ~ In id (map id_of c).
Proof.
  intros H Hin. apply in_map_iff in Hin. destruct Hin as (d & Hd & Hin).
  now apply (findById_None id_of c id H d Hin).
Qed.

Lemma findById_not_In {A} (id_of : A -> oid) (c : list A) (id : oid) :
  ~ In id (map id_of c) -> findById id_of c id = None.
Proof.
  intros H. destruct (findById id_of c id) as [d|] eqn:E; [|reflexivity].
  apply findById_Some_In in E. destruct E as [Hin Hid].
  exfalso. apply H. rewrite <- Hid. now apply in_map.
Qed.

Lemma findById_app_new {A} (id_of : A -> oid) (c : list A) (d : A) :
  findById id_of c (id_of d) = None ->
  findById id_of (c ++ [d])%list (id_of d) = Some d.
Proof.
  unfold findById. induction c as [|x r IH]; cbn.
  - now rewrite String.eqb_refl.
  - destruct (id_of x =? id_of d); [discriminate | exact IH].
Qed.

Lemma findById_app_old {A} (id_of : A -> oid) (c : list A) (d x : A) (id : oid) :
  findById id_of c id = Some x ->
  findById id_of (c ++ [d])%list id = Some x.
Proof.
  unfold findById. induction c as [|y r IH]; cbn; [discriminate|].
  destruct (id_of y =? id); [trivial | exact IH].
Qed.

Lemma insert_Some {A} (id_of : A -> oid) (c l : list A) (d : A) :
  insert id_of c d = Some l ->
  l = (c ++ [d])%list /\ findById id_of c (id_of d) = None.
Proof.
  unfold insert. destruct (findById id_of c (id_of d)); [discriminate|].
  intros H. inversion H. split; reflexivity.
Qed.

Lemma insert_unique {A} (id_of : A -> oid) (c l : list A) (d : A) :
  insert id_of c d = Some l ->
  NoDup (map id_of c) -> NoDup (map id_of l).
Proof.
  intros H Hc. apply insert_Some in H. destruct H as [-> Hnew].
  rewrite map_app. cbn.
  apply NoDup_app_remove_l with (l := []). cbn.
  apply Permutation_NoDup with (l := id_of d :: map id_of c).
  - apply Permutation_cons_append.
  - constructor; [now apply findById_None_not_In | assumption].
Qed.

Lemma remove_ids_incl {A} (id_of : A -> oid) (c : list A) (id : oid) :
  incl (map id_of (findByIdAndRemove id_of c id)) (map id_of c).
Proof.
  apply incl_map, findByIdAndRemove_incl.
Qed.

Lemma remove_unique {A} (id_of : A -> oid) (c : list A) (id : oid) :
  NoDup (map id_of c) -> NoDup (map id_of (findByIdAndRemove id_of c id)).
Proof.
  induction c as [|x r IH]; cbn; intros H; [constructor|].
  inversion H as [|? ? Hx Hr]; subst.
  destruct (id_of x =? id); [assumption|].
  cbn. constructor; [|now apply IH].
  intros Hin. apply Hx. now apply (remove_ids_incl id_of r id).
Qed.

Lemma findById_after_remove {A} (id_of : A -> oid) (c : list A) (id : oid) :
  NoDup (map id_of c) ->
  findById id_of (findByIdAndRemove id_of c id) id = None.
Proof.
  intros H. apply findById_not_In.
  induction c as [|x r IH]; cbn; [tauto|].
  inversion H as [|? ? Hx Hr]; subst.
  destruct (id_of x =? id) eqn:E.
  - apply String.eqb_eq in E. now rewrite <- E.
  - cbn. intros [Heq|Hin]; [|now apply IH].
    apply String.eqb_neq in E. contradiction.
Qed.

Lemma findByIdAndUpdate_missing {A} (id_of : A -> oid) (assign : A -> A -> A)
      (c : list A) (id : oid) (new : A) :
  findById id_of c id = None ->
  findByIdAndUpdate id_of assign c id new = (None, c).
Proof.
  unfold findById. induction c as [|x r IH]; cbn; [reflexivity|].
  destruct (id_of x =? id); [discriminate|].
  intros H. now rewrite (IH H).
Qed.

Lemma findByIdAndUpdate_found {A} (id_of : A -> oid) (assign : A -> A -> A)
      (c : list A) (id : oid) (new old : A) :
  (forall o n, id_of (assign o n) = id_of o) ->
  findById id_of c id = Some old ->
  fst (findByIdAndUpdate id_of assign c id new) = Some old /\
  findById id_of (snd (findByIdAndUpdate id_of assign c id new)) id
  = Some (assign old new).
Proof.
  intros Hid. unfold findById. induction c as [|x r IH]; cbn; [discriminate|].
  destruct (id_of x =? id) eqn:E.
  - intros H. inversion H; subst x. cbn. rewrite Hid, E. split; reflexivity.
  - intros H. specialize (IH H).
    destruct (findByIdAndUpdate id_of assign r id new) as [o r'].
    cbn in IH |- *. destruct IH as (Ho & Hf).
    rewrite E. split; assumption.
Qed.

Lemma findByIdAndUpdate_ids {A} (id_of : A -> oid) (assign : A -> A -> A)
      (c : list A) (id : oid) (new : A) :
  (forall o n, id_of (assign o n) = id_of o) ->
  map id_of (snd (findByIdAndUpdate id_of assign c id new)) = map id_of c.
Proof.
  intros Hid. induction c as [|x r IH]; cbn; [reflexivity|].
  destruct (id_of x =? id); cbn; [now rewrite Hid|].
  destruct (findByIdAndUpdate id_of assign r id new) as [o r'].
  cbn in IH |- *. now rewrite IH.
Qed.

(** ** Sorting *)

Lemma key_leb_total (a b : option string) :
  key_leb a b = true \/ key_leb b a = true.
Proof.
  destruct a as [x|], b as [y|]; cbn; auto. apply String.leb_total.
Qed.

Lemma insert_sorted_perm {A} (key : A -> option string) (d : A) (l : list A) :
  Permutation (insert_sorted key d l) (d :: l).
Proof.
  induction l as [|x r IH]; cbn; [reflexivity|].
  destruct (key_leb (key d) (key x)); [reflexivity|].
  rewrite IH. apply perm_swap.
Qed.

Lemma sort_by_perm {A} (key : A -> option string) (l : list A) :
  Permutation (sort_by key l) l.
Proof.
  induction l as [|x r IH]; cbn; [reflexivity|].
  rewrite insert_sorted_perm. now constructor.
Qed.

Lemma insert_sorted_ascending {A} (key : A -> option string) (d : A) (l : list A) :
  ascending key l -> ascending key (insert_sorted key d l).
Proof.
  unfold ascending. induction l as [|x r IH]; cbn; intros H.
  - repeat constructor.
  - destruct (key_leb (key d) (key x)) eqn:E.
    + constructor; [assumption | now constructor].
    + inversion H as [|? ? Hr Hx]; subst.
      constructor; [now apply IH|].
      destruct r as [|y r']; cbn.
      * constructor. destruct (key_leb_total (key d) (key x)); congruence.
      * destruct (key_leb (key d) (key y)).
        -- constructor. destruct (key_leb_total (key d) (key x)); congruence.
        -- inversion Hx; subst. now constructor.
Qed.

Lemma sort_by_ascending {A} (key : A -> option string) (l : list A) :
  ascending key (sort_by key l).
Proof.
  induction l as [|x r IH]; cbn; [constructor|].
  now apply insert_sorted_ascending.
Qed.

(** ** Deleting a Genre, and deletions that go through *)

(** X1.  On delete-submit of a Genre, when Books list the identity of the URL
    among their genres, the store is left as it is and the confirmation
    view is rendered with those Books; when none does, the Genre named in
    the form leaves the store and the answer is a redirect to the list of
    genres. *)
Theorem genre_delete_post_spec (s : store) (id genreid : oid) :
  (books_with_genre s id <> [] ->
   serve (genre_delete_post id genreid) s =
   (s, [Render "genre_delete"
          [("title", PString "Delete Genre");
           ("genre", PGenre (findById Genre._id (genres s) id));
           ("genre_books", PBriefs (map Book.title_summary (books_with_genre s id)))]])) /\
  (books_with_genre s id = [] ->
   serve (genre_delete_post id genreid) s =
   (set_genres s (findByIdAndRemove Genre._id (genres s) genreid),
    [Redirect "/catalog/genres"])).
Proof.
  split; intros H; unfold genre_delete_post; run_handler.
  - destruct (books_with_genre s id); [contradiction|].
    run_handler. now destruct s.
  - rewrite H. reflexivity.
Qed.

Lemma genre_delete_post_spec_witness :
  serve (genre_delete_post "g1" "g1") shelf =
  (shelf, [Render "genre_delete"
             [("title", PString "Delete Genre");
              ("genre", PGenre (Some novel));
              ("genre_books", PBriefs [Book.title_summary emma])]]) /\
  serve (genre_delete_post "g1" "g1") (mkStore [austen] [novel] [] []) =
  (mkStore [austen] [] [] [], [Redirect "/catalog/genres"]).
Proof.
  split.
  - apply (proj1 (genre_delete_post_spec shelf "g1" "g1")). discriminate.
  - apply (proj2 (genre_delete_post_spec (mkStore [austen] [novel] [] []) "g1" "g1")).
    reflexivity.
Defined.

(** X2.  On delete-submit of an Author to whom no Book refers, and of an
    existing Book to which no copy refers, the record named in the form
    leaves its collection, the other collections are untouched, and the
    answer is a redirect to the list view. *)
Theorem delete_post_unblocked (s : store) (id formid : oid) :
  (books_by_author s id = [] ->
   serve (author_delete_post id formid) s =
   (set_authors s (findByIdAndRemove Author._id (authors s) formid),
    [Redirect "/catalog/authors"])) /\
  (forall b, findById Book._id (books s) id = Some b ->
             instances_of_book s id = [] ->
             serve (book_delete_post id formid) s =
             (set_books s (findByIdAndRemove Book._id (books s) formid),
              [Redirect "/catalog/books"])).
Proof.
  split.
  - intros H. unfold author_delete_post. run_handler. rewrite H. reflexivity.
  - intros b Hb H. unfold book_delete_post. run_handler.
    rewrite Hb. cbn. rewrite H. reflexivity.
Qed.

Lemma delete_post_unblocked_witness :
  serve (author_delete_post "a1" "a1") (mkStore [austen] [novel] [] []) =
  (mkStore [] [novel] [] [], [Redirect "/catalog/authors"]) /\
  serve (book_delete_post "b2" "b2") two_books =
  (mkStore [austen] [novel] [emma] [copy1], [Redirect "/catalog/books"]).
Proof.
  split.
  - apply (proj1 (delete_post_unblocked (mkStore [austen] [novel] [] []) "a1" "a1")).
    reflexivity.
  - apply (proj2 (delete_post_unblocked two_books "b2" "b2")) with (b := persuasion);
      reflexivity.
Defined.

(** ** The list views *)

(** X3.  The list views of the Authors, of the Genres and of the BookInstances
    leave the store as it is and render every document of the collection
    once, in ascending order of [family_name], of [name] and of [status];
    each BookInstance comes with its Book resolved. *)
Theorem list_views_sorted (s : store) :
  (exists l,
      serve author_list s =
      (s, [Render "author_list"
             [("title", PString "Author List"); ("author_list", PAuthors l)]]) /\
      Permutation l (authors s) /\ ascending Author.family_name l) /\
  (exists l,
      serve genre_list s =
      (s, [Render "genre_list"
             [("title", PString "Genre List");
              ("genre_list", PGenres (map (fun g => (g, unchecked)) l))]]) /\
      Permutation l (genres s) /\ ascending Genre.name l) /\
  (exists l,
      serve bookinstance_list s =
      (s, [Render "bookinstance_list"
             [("title", PString "Book Instance List");
              ("bookinstance_list", PInstances l)]]) /\
      Permutation l (map (populate_instance s) (bookinstances s)) /\
      ascending (fun i => BookInstance.status (BookInstance.doc i)) l).
Proof.
  split; [|split].
  - exists (sort_by Author.family_name (authors s)). split; [|split].
    + unfold author_list. run_handler. now destruct s.
    + apply sort_by_perm.
    + apply sort_by_ascending.
  - exists (sort_by Genre.name (genres s)). split; [|split].
    + unfold genre_list. run_handler. now destruct s.
    + apply sort_by_perm.
    + apply sort_by_ascending.
  - exists (sort_by (fun i => BookInstance.status (BookInstance.doc i))
                    (map (populate_instance s) (bookinstances s))).
    split; [|split].
    + unfold bookinstance_list. run_handler. now destruct s.
    + apply sort_by_perm.
    + apply sort_by_ascending.
Qed.

(** ** Requests that only read *)

Ltac read_only :=
  run_handler;
  repeat match goal with
         | |- context [findById ?f ?c ?i] => destruct (findById f c i); run_handler
         | |- context [BookInstance.book_doc ?x] =>
             destruct (BookInstance.book_doc x); run_handler
         end;
  try match goal with s : store |- _ => destruct s end; reflexivity.

(** X4.  The detail views, the delete confirmations, the update forms, the list
    views and the create forms leave the store as it is, whatever the
    identity they are asked for. *)
Theorem get_handlers_read_only (s : store) (id : oid) :
  fst (serve (author_detail id) s) = s /\
  fst (serve (genre_detail id) s) = s /\
  fst (serve (book_detail id) s) = s /\
  fst (serve (bookinstance_detail id) s) = s /\
  fst (serve (author_delete_get id) s) = s /\
  fst (serve (genre_delete_get id) s) = s /\
  fst (serve (book_delete_get id) s) = s /\
  fst (serve (bookinstance_delete_get id) s) = s /\
  fst (serve (author_update_get id) s) = s /\
  fst (serve (genre_update_get id) s) = s /\
  fst (serve (book_update_get id) s) = s /\
  fst (serve (bookinstance_update_get id) s) = s /\
  fst (serve author_list s) = s /\
  fst (serve genre_list s) = s /\
  fst (serve bookinstance_list s) = s /\
  fst (serve author_create_get s) = s /\
  fst (serve genre_create_get s) = s /\
  fst (serve book_create_get s) = s /\
  fst (serve bookinstance_create_get s) = s.
Proof.
  repeat apply conj.
  - unfold author_detail. read_only.
  - unfold genre_detail. read_only.
  - unfold book_detail. read_only.
  - unfold bookinstance_detail. read_only.
  - unfold author_delete_get. read_only.
  - unfold genre_delete_get. read_only.
  - unfold book_delete_get. read_only.
  - unfold bookinstance_delete_get. read_only.
  - unfold author_update_get. read_only.
  - unfold genre_update_get. read_only.
  - unfold book_update_get. read_only.
  - unfold bookinstance_update_get, book_id_of. read_only.
  - unfold author_list. read_only.
  - unfold genre_list. read_only.
  - unfold bookinstance_list. read_only.
  - unfold author_create_get, plain. read_only.
  - unfold genre_create_get, plain. read_only.
  - unfold book_create_get, plain. read_only.
  - unfold bookinstance_create_get. read_only.
Qed.

(** ** The update form of a Book *)

Lemma mark_populated_spec (s : store) (b : Book.t) :
  mark_populated (populate_book s b) (genres s) =
  map (fun g => (g, if oid_in (Genre._id g) (Book.genre b)
                    then checked_true else unchecked))
      (genres s).
Proof.
  unfold mark_populated. apply map_ext_in. intros g Hg. f_equal.
  replace (existsb (fun book_g => Genre._id g =? Genre._id book_g)
                   (Book.genre_docs (populate_book s b)))
    with (oid_in (Genre._id g) (Book.genre b)); [reflexivity|].
  apply eq_true_iff_eq. unfold oid_in, populate_book. cbn [Book.genre_docs].
  rewrite !existsb_exists. split.
  - intros (j & Hj & Ej). apply String.eqb_eq in Ej. subst j.
    destruct (findById Genre._id (genres s) (Genre._id g)) as [d|] eqn:E.
    + exists d. split.
      * apply in_flat_map. exists (Genre._id g). split; [assumption|].
        rewrite E. now left.
      * apply findById_Some_In in E. destruct E as [_ E].
        rewrite E. apply String.eqb_refl.
    + exfalso. now apply (findById_None _ _ _ E g Hg).
  - intros (d & Hd & Ed). apply String.eqb_eq in Ed.
    apply in_flat_map in Hd. destruct Hd as (j & Hj & Hd).
    exists j. split; [assumption|].
    destruct (findById Genre._id (genres s) j) as [d'|] eqn:E; [|contradiction].
    destruct Hd as [<-|[]]. apply findById_Some_In in E. destruct E as [_ E].
    rewrite Ed, E. apply String.eqb_refl.
Qed.

(** X5.  The update form of an existing Book is rendered with the Book and its
    references resolved, with all the Authors, and with all the Genres, of
    which exactly those that the Book lists are marked as checked; the
    store is left as it is. *)
Theorem book_update_get_preselects (s : store) (id : oid) (b : Book.t) :
  findById Book._id (books s) id = Some b ->
  serve (book_update_get id) s =
  (s, [Render "book_form"
         [("title", PString "Update Book");
          ("authors", PAuthors (authors s));
          ("genres",
           PGenres (map (fun g => (g, if oid_in (Genre._id g) (Book.genre b)
                                      then checked_true else unchecked))
                        (genres s)));
          ("book", PBookPopulated (Some (populate_book s b)))]]).
Proof.
  intros H. rewrite <- mark_populated_spec.
  unfold book_update_get. run_handler. rewrite H. cbn. now destruct s.
Qed.

Lemma book_update_get_preselects_witness :
  serve (book_update_get "b1") shelf =
  (shelf, [Render "book_form"
             [("title", PString "Update Book");
              ("authors", PAuthors [austen]);
              ("genres", PGenres [(novel, checked_true)]);
              ("book", PBookPopulated (Some (Book.mkPopulated emma (Some austen) [novel])))]]).
Proof.
  apply (book_update_get_preselects shelf "b1" emma). reflexivity.
Defined.

(** ** A Genre after its creation *)

Lemma findOne_genre_app_new (s : store) (n : string) (g : Genre.t) :
  findOne_genre_by_name s (VStr n) = None ->
  Genre.name g = Some n ->
  findOne_genre_by_name (set_genres s (genres s ++ [g])%list) (VStr n) = Some g.
Proof.
  unfold findOne_genre_by_name. cbn [genres set_genres]. intros Hnone Hn.
  induction (genres s) as [|x r IH]; cbn in *.
  - now rewrite Hn, String.eqb_refl.
  - destruct (match Genre.name x with Some m => m =? n | None => false end);
      [discriminate | now apply IH].
Qed.

Lemma books_with_genre_set_genres (s : store) (l : list Genre.t) (id : oid) :
  books_with_genre (set_genres s l) id = books_with_genre s id.
Proof. reflexivity. Qed.

(** X6.  After a Genre has been created, the path the answer redirects to shows
    it: the detail view of the new identity renders the Genre with the
    sanitized name, and a second submission of the same name adds nothing
    and is redirected to the same path. *)
Theorem genre_create_then_detail (s : store) (fresh fresh' : oid) (req_body : GenreForm.t) :
  let name := escape (trim (toString (GenreForm.name req_body))) in
  let genre := Genre.mk fresh (Some name) in
  failures genre_create_chain (GenreForm.name req_body) = [] ->
  (forall g, In g (genres s) -> Genre.name g <> Some name) ->
  findById Genre._id (genres s) fresh = None ->
  let s' := fst (serve (genre_create_post fresh req_body) s) in
  snd (serve (genre_create_post fresh req_body) s) = [Redirect ("/catalog/genre/" ++ fresh)] /\
  serve (genre_detail fresh) s' =
  (s', [Render "genre_detail"
          [("title", PString "Genre Details");
           ("genre", PGenre (Some genre));
           ("genre_books", PBriefs (map Book.title_summary (books_with_genre s fresh)))]]) /\
  serve (genre_create_post fresh' req_body) s' = (s', [Redirect ("/catalog/genre/" ++ fresh)]).
Proof.
  intros name genre Hpass Hnone Hfresh s'.
  pose proof (genre_create_chain_passes _ Hpass) as Hlen.
  pose proof (findOne_genre_None s name Hnone) as Hfind.
  assert (E : serve (genre_create_post fresh req_body) s =
              (set_genres s (genres s ++ [genre]), [Redirect (Genre.url genre)])).
  { now apply genre_create_post_new. }
  subst s'. rewrite E. cbn [fst snd]. split; [reflexivity|]. split.
  - unfold genre_detail. run_handler.
    rewrite books_with_genre_set_genres.
    assert (Hf : findById Genre._id (genres s ++ [genre])%list fresh = Some genre)
      by exact (findById_app_new Genre._id (genres s) genre Hfresh).
    rewrite Hf. run_handler. reflexivity.
  - change ("/catalog/genre/" ++ fresh) with (Genre.url genre).
    apply genre_create_post_existing; [assumption|].
    now apply findOne_genre_app_new.
Qed.

Lemma genre_create_then_detail_witness :
  serve (genre_create_post "g3" (GenreForm.mk (VStr " Poetry")))
        (fst (serve (genre_create_post "g2" (GenreForm.mk (VStr " Poetry"))) shelf)) =
  (mkStore [austen] [novel; Genre.mk "g2" (Some "Poetry")] [emma] [copy1; copy2],
   [Redirect "/catalog/genre/g2"]).
Proof.
  apply (genre_create_then_detail shelf "g2" "g3" (GenreForm.mk (VStr " Poetry"))).
  - reflexivity.
  - intros g [<-|[]]. discriminate.
  - reflexivity.
Defined.

(** ** A BookInstance after its deletion *)

(** X7.  When the identities of the collection are distinct and an available
    copy has been deleted, its detail view signals "not found", and a
    second delete-submit of the same identity writes nothing and renders
    the confirmation view without a record. *)
Theorem bookinstance_delete_then_gone (s : store) (id : oid) (i : BookInstance.t) :
  NoDup (map BookInstance._id (bookinstances s)) ->
  findById BookInstance._id (bookinstances s) id = Some i ->
  BookInstance.status i = Some "Available" ->
  let s' := fst (serve (bookinstance_delete_post id) s) in
  not_found_signalled (serve (bookinstance_detail id) s') s' /\
  serve (bookinstance_delete_post id) s' =
  (s', [Render "bookinstance_delete"
          [("title", PString "Delete Book Instance");
           ("bookinstance", PInstance None)]]).
Proof.
  intros Hu Hi Hst s'. subst s'.
  rewrite (bookinstance_delete_post_available s id i Hi Hst). cbn [fst].
  remember (set_bookinstances s
              (findByIdAndRemove BookInstance._id (bookinstances s) id)) as s' eqn:Es'.
  assert (Hgone : findById BookInstance._id (bookinstances s') id = None).
  { rewrite Es'. cbn [bookinstances set_bookinstances]. now apply findById_after_remove. }
  clear Es'.
  split.
  - unfold not_found_signalled, bookinstance_detail. run_handler.
    rewrite Hgone. cbn. destruct s'; eexists; split; reflexivity.
  - rewrite (bookinstance_delete_post_otherwise s' id (or_introl Hgone)).
    now rewrite Hgone.
Qed.

Lemma bookinstance_delete_then_gone_witness :
  not_found_signalled
    (serve (bookinstance_detail "i1") (mkStore [austen] [novel] [emma] [copy2]))
    (mkStore [austen] [novel] [emma] [copy2]).
Proof.
  apply (bookinstance_delete_then_gone shelf "i1" copy1).
  - repeat constructor; cbn; intuition discriminate.
  - reflexivity.
  - reflexivity.
Defined.

(** ** Update-submit of a valid form *)

Lemma genre_update_chain_passes (v : fval) :
  failures genre_update_chain v = [] ->
  run_chain genre_update_chain v = (sanitize_text v, []).
Proof.
  unfold failures, genre_update_chain. rewrite run_trim_isLength_escape.
  cbn [snd]. now intros ->.
Qed.

Lemma set_genres_same (s : store) : set_genres s (genres s) = s.
Proof. now destruct s. Qed.
Lemma set_authors_same (s : store) : set_authors s (authors s) = s.
Proof. now destruct s. Qed.
Lemma set_books_same (s : store) : set_books s (books s) = s.
Proof. now destruct s. Qed.
Lemma set_bookinstances_same (s : store) : set_bookinstances s (bookinstances s) = s.
Proof. now destruct s. Qed.

(** X8.  On update-submit of a Genre whose name passes the validation chain,
    when the Genre exists: the answer is a redirect to its canonical path,
    the Genre of that identity now has the sanitized name, the identities
    of the collection are what they were, and the other collections are
    untouched. *)
Theorem genre_update_post_found (s : store) (id : oid) (req_body : GenreForm.t)
        (g : Genre.t) :
  let name := escape (trim (toString (GenreForm.name req_body))) in
  failures genre_update_chain (GenreForm.name req_body) = [] ->
  findById Genre._id (genres s) id = Some g ->
  let s' := fst (serve (genre_update_post id req_body) s) in
  snd (serve (genre_update_post id req_body) s) = [Redirect ("/catalog/genre/" ++ id)] /\
  findById Genre._id (genres s') id = Some (Genre.mk id (Some name)) /\
  map Genre._id (genres s') = map Genre._id (genres s) /\
  authors s' = authors s /\ books s' = books s /\ bookinstances s' = bookinstances s.
Proof.
  intros name Hpass Hg s'. subst s'.
  unfold genre_update_post. rewrite (genre_update_chain_passes _ Hpass).
  unfold update_genre. run_handler.
  assert (Hid : forall o n, Genre._id (Genre.assign o n) = Genre._id o) by reflexivity.
  pose proof (findByIdAndUpdate_found Genre._id Genre.assign (genres s) id
                (new_Genre id (sanitize_text (GenreForm.name req_body))) g Hid Hg)
    as [Hfst Hfind].
  pose proof (findByIdAndUpdate_ids Genre._id Genre.assign (genres s) id
                (new_Genre id (sanitize_text (GenreForm.name req_body))) Hid) as Hids.
  destruct (findByIdAndUpdate Genre._id Genre.assign (genres s) id
              (new_Genre id (sanitize_text (GenreForm.name req_body)))) as [o l].
  cbn in Hfst, Hfind, Hids. subst o. run_handler.
  apply findById_Some_In in Hg. destruct Hg as [_ Hgid].
  unfold Genre.url. rewrite Hgid. repeat apply conj; try reflexivity.
  - rewrite Hfind. unfold Genre.assign. now rewrite Hgid.
  - exact Hids.
Qed.

Lemma genre_update_post_found_witness :
  serve (genre_update_post "g1" (GenreForm.mk (VStr " Romance "))) shelf =
  (mkStore [austen] [Genre.mk "g1" (Some "Romance")] [emma] [copy1; copy2],
   [Redirect "/catalog/genre/g1"]).
Proof.
  pose proof (genre_update_post_found shelf "g1" (GenreForm.mk (VStr " Romance ")) novel
                eq_refl eq_refl) as H.
  cbn zeta in H. destruct H as [H _].
  rewrite (surjective_pairing (serve _ shelf)). rewrite H. reflexivity.
Defined.

(** X9.  On update-submit of a valid form for an identity that resolves to no
    record, for each of the four kinds: nothing is created, the store is
    left as it is, and the handler fails on the [url] of the null result;
    the error, which has no status, is passed to [next]. *)
Theorem update_post_missing_record
        (isISO8601 : string -> bool) (Date_parse : string -> option string)
        (s : store) (id : oid) :
  (forall b, failures genre_update_chain (GenreForm.name b) = [] ->
             findById Genre._id (genres s) id = None ->
             serve (genre_update_post id b) s = (s, [Next (TypeError_null "url")])) /\
  (forall b, snd (author_update_validate isISO8601 Date_parse b) = [] ->
             findById Author._id (authors s) id = None ->
             serve (author_update_post isISO8601 Date_parse id b) s
             = (s, [Next (TypeError_null "url")])) /\
  (forall b, snd (book_update_middlewares b) = [] ->
             findById Book._id (books s) id = None ->
             serve (book_update_post id b) s = (s, [Next (TypeError_null "url")])) /\
  (forall b, snd (bookinstance_update_validate isISO8601 Date_parse b) = [] ->
             findById BookInstance._id (bookinstances s) id = None ->
             serve (bookinstance_update_post isISO8601 Date_parse id b) s
             = (s, [Next (TypeError_null "url")])).
Proof.
  repeat apply conj.
  - intros b Hpass Hnone. unfold genre_update_post.
    rewrite (genre_update_chain_passes _ Hpass).
    unfold update_genre. run_handler.
    rewrite (findByIdAndUpdate_missing _ _ _ _ _ Hnone). run_handler.
    now rewrite set_genres_same.
  - intros b Hpass Hnone. unfold author_update_post.
    destruct (author_update_validate isISO8601 Date_parse b) as [b' errors].
    cbn in Hpass. subst errors. unfold update_author. run_handler.
    rewrite (findByIdAndUpdate_missing _ _ _ _ _ Hnone). run_handler.
    now rewrite set_authors_same.
  - intros b Hpass Hnone. unfold book_update_post.
    destruct (book_update_middlewares b) as [b' errors].
    cbn in Hpass. subst errors. unfold update_book. run_handler.
    rewrite (findByIdAndUpdate_missing _ _ _ _ _ Hnone). run_handler.
    now rewrite set_books_same.
  - intros b Hpass Hnone. unfold bookinstance_update_post.
    destruct (bookinstance_update_validate isISO8601 Date_parse b) as [b' errors].
    cbn in Hpass. subst errors. unfold update_bookinstance. run_handler.
    rewrite (findByIdAndUpdate_missing _ _ _ _ _ Hnone). run_handler.
    now rewrite set_bookinstances_same.
Qed.

Lemma update_post_missing_record_witness :
  serve (genre_update_post "zz" (GenreForm.mk (VStr "Romance"))) shelf =
  (shelf, [Next (TypeError_null "url")]).
Proof.
  apply (proj1 (update_post_missing_record (fun _ => true) (fun _ => None) shelf "zz"));
    reflexivity.
Defined.

(** ** Distinct identities *)

Lemma update_unique {A} (id_of : A -> oid) (assign : A -> A -> A)
      (c l : list A) (id : oid) (new : A) (o : option A) :
  (forall o n, id_of (assign o n) = id_of o) ->
  findByIdAndUpdate id_of assign c id new = (o, l) ->
  NoDup (map id_of c) -> NoDup (map id_of l).
Proof.
  intros Hid E H.
  pose proof (findByIdAndUpdate_ids id_of assign c id new Hid) as Hids.
  rewrite E in Hids. cbn in Hids. now rewrite Hids.
Qed.

Ltac split_branches :=
  repeat (run_handler;
          match goal with
          | |- context [insert ?f ?c ?d] => destruct (insert f c d) eqn:?
          | |- context [findByIdAndUpdate ?f ?a ?c ?i ?n] =>
              destruct (findByIdAndUpdate f a c i n) as [? ?] eqn:?
          | |- context [findOne_genre_by_name ?s ?n] =>
              destruct (findOne_genre_by_name s n)
          | |- context [findById ?f ?c ?i] => destruct (findById f c i)
          | |- context [if ?c then _ else _] => destruct c
          | |- context [match ?c with Some _ => _ | None => _ end] => destruct c
          end);
  run_handler.

Ltac keep_unique :=
  unfold unique_ids in *;
  cbn [authors genres books bookinstances
       set_authors set_genres set_books set_bookinstances];
  repeat apply conj; try tauto;
  first [ eapply insert_unique; [eassumption | tauto]
        | apply remove_unique; tauto
        | eapply update_unique; [ | eassumption | tauto]; reflexivity ].

Lemma genre_create_post_unique
      (s : store) (unique : unique_ids s) (fresh : oid) (b : GenreForm.t) :
  unique_ids (fst (serve (genre_create_post fresh b) s)).
Proof.
  unfold genre_create_post.
  destruct (run_chain genre_create_chain (GenreForm.name b)) as [n errs].
  unfold save_genre. destruct errs; split_branches; keep_unique.
Qed.

Lemma genre_delete_post_unique
      (s : store) (unique : unique_ids s) (id formid : oid) :
  unique_ids (fst (serve (genre_delete_post id formid) s)).
Proof. unfold genre_delete_post. split_branches; keep_unique. Qed.

Lemma genre_update_post_unique
      (s : store) (unique : unique_ids s) (id : oid) (b : GenreForm.t) :
  unique_ids (fst (serve (genre_update_post id b) s)).
Proof.
  unfold genre_update_post.
  destruct (run_chain genre_update_chain (GenreForm.name b)) as [n errs].
  unfold update_genre. destruct errs; split_branches; keep_unique.
Qed.

Lemma author_create_post_unique
      (isISO8601 : string -> bool) (Date_parse : string -> option string)
      (s : store) (unique : unique_ids s) (fresh : oid) (b : AuthorForm.t) :
  unique_ids (fst (serve (author_create_post isISO8601 Date_parse fresh b) s)).
Proof.
  unfold author_create_post.
  destruct (author_create_validate isISO8601 Date_parse b) as [b' errs].
  unfold save_author. destruct errs; split_branches; keep_unique.
Qed.

Lemma author_delete_post_unique
      (s : store) (unique : unique_ids s) (id formid : oid) :
  unique_ids (fst (serve (author_delete_post id formid) s)).
Proof. unfold author_delete_post. split_branches; keep_unique. Qed.

Lemma author_update_post_unique
      (isISO8601 : string -> bool) (Date_parse : string -> option string)
      (s : store) (unique : unique_ids s) (id : oid) (b : AuthorForm.t) :
  unique_ids (fst (serve (author_update_post isISO8601 Date_parse id b) s)).
Proof.
  unfold author_update_post.
  destruct (author_update_validate isISO8601 Date_parse b) as [b' errs].
  unfold update_author. destruct errs; split_branches; keep_unique.
Qed.

Lemma book_create_post_unique
      (s : store) (unique : unique_ids s) (fresh : oid) (b : BookForm.t) :
  unique_ids (fst (serve (book_create_post fresh b) s)).
Proof.
  unfold book_create_post.
  destruct (book_create_middlewares b) as [b' errs].
  unfold save_book. destruct errs; split_branches; keep_unique.
Qed.

Lemma book_delete_post_unique
      (s : store) (unique : unique_ids s) (id formid : oid) :
  unique_ids (fst (serve (book_delete_post id formid) s)).
Proof. unfold book_delete_post. split_branches; keep_unique. Qed.

Lemma book_update_post_unique
      (s : store) (unique : unique_ids s) (id : oid) (b : BookForm.t) :
  unique_ids (fst (serve (book_update_post id b) s)).
Proof.
  unfold book_update_post.
  destruct (book_update_middlewares b) as [b' errs].
  unfold update_book. destruct errs; split_branches; keep_unique.
Qed.

Lemma bookinstance_delete_post_unique
      (s : store) (unique : unique_ids s) (formid : oid) :
  unique_ids (fst (serve (bookinstance_delete_post formid) s)).
Proof. unfold bookinstance_delete_post. split_branches; keep_unique. Qed.

Lemma bookinstance_update_post_unique
      (isISO8601 : string -> bool) (Date_parse : string -> option string)
      (s : store) (unique : unique_ids s) (id : oid) (b : BookInstanceForm.t) :
  unique_ids (fst (serve (bookinstance_update_post isISO8601 Date_parse id b) s)).
Proof.
  unfold bookinstance_update_post.
  destruct (bookinstance_update_validate isISO8601 Date_parse b) as [b' errs].
  unfold update_bookinstance, book_id_of. destruct errs; split_branches; keep_unique.
Qed.

(** X10.  Every submit handler keeps the identities of each collection distinct:
    a creation adds a document only under an identity that is not in the
    collection, a deletion only takes a document out, and an update leaves
    the identity of the document it changes. *)
Theorem post_handlers_keep_unique_ids
        (isISO8601 : string -> bool) (Date_parse : string -> option string)
        (s : store) (id formid fresh : oid) :
  unique_ids s ->
  (forall b, unique_ids (fst (serve (genre_create_post fresh b) s))) /\
  unique_ids (fst (serve (genre_delete_post id formid) s)) /\
  (forall b, unique_ids (fst (serve (genre_update_post id b) s))) /\
  (forall b, unique_ids (fst (serve (author_create_post isISO8601 Date_parse fresh b) s))) /\
  unique_ids (fst (serve (author_delete_post id formid) s)) /\
  (forall b, unique_ids (fst (serve (author_update_post isISO8601 Date_parse id b) s))) /\
  (forall b, unique_ids (fst (serve (book_create_post fresh b) s))) /\
  unique_ids (fst (serve (book_delete_post id formid) s)) /\
  (forall b, unique_ids (fst (serve (book_update_post id b) s))) /\
  unique_ids (fst (serve (bookinstance_delete_post formid) s)) /\
  (forall b, unique_ids (fst (serve (bookinstance_update_post isISO8601 Date_parse id b) s))).
Proof.
  intros H.
  exact (conj (genre_create_post_unique s H fresh)
        (conj (genre_delete_post_unique s H id formid)
        (conj (genre_update_post_unique s H id)
        (conj (author_create_post_unique isISO8601 Date_parse s H fresh)
        (conj (author_delete_post_unique s H id formid)
        (conj (author_update_post_unique isISO8601 Date_parse s H id)
        (conj (book_create_post_unique s H fresh)
        (conj (book_delete_post_unique s H id formid)
        (conj (book_update_post_unique s H id)
        (conj (bookinstance_delete_post_unique s H formid)
              (bookinstance_update_post_unique isISO8601 Date_parse s H id))))))))))).
Qed.

Lemma post_handlers_keep_unique_ids_witness :
  unique_ids (fst (serve (genre_create_post "g2" (GenreForm.mk (VStr "Poetry"))) shelf)).
Proof.
  apply (post_handlers_keep_unique_ids (fun _ => true) (fun _ => None) shelf "g1" "g1" "g2").
  unfold unique_ids, shelf. cbn.
  repeat apply conj; repeat constructor; cbn; intuition discriminate.
Defined.

(** ** What the validation chains accept *)

Lemma run_trim_isLength_escape_withMessage (path m : string) (min : nat) (v : fval) :
  run_chain (body path None [Trim; IsLength min; Escape; withMessage m]) v =
  (sanitize_text v, length_failure path m min v).
Proof.
  unfold run_chain, sanitize_text, length_failure. cbn.
  destruct (isLength min (trim (toString v))); reflexivity.
Qed.

Lemma run_date_chain (isISO8601 : string -> bool) (Date_parse : string -> option string)
      (path m : string) (v : fval) :
  snd (run_chain (body path None
                       [optional_checkFalsy; IsISO8601 isISO8601; ToDate Date_parse;
                        withMessage m]) v)
  = date_failure isISO8601 path m v.
Proof.
  unfold run_chain, date_failure. cbn.
  destruct (truthy v) eqn:T; cbn; [|reflexivity].
  destruct (isISO8601 (toString v)); cbn; rewrite ?T; reflexivity.
Qed.

Lemma app_nil_iff {A} (l1 l2 : list A) : (l1 ++ l2)%list = [] <-> l1 = [] /\ l2 = [].
Proof.
  split.
  - apply app_eq_nil.
  - now intros [-> ->].
Qed.

Lemma length_failure_nil (path m : string) (min : nat) (v : fval) :
  length_failure path m min v = [] <-> isLength min (trim (toString v)) = true.
Proof.
  unfold length_failure. destruct (isLength min (trim (toString v))); split;
    intros; try reflexivity; discriminate.
Qed.

Lemma date_failure_nil (isISO8601 : string -> bool) (path m : string) (v : fval) :
  date_failure isISO8601 path m v = [] <->
  (truthy v = false \/ isISO8601 (toString v) = true).
Proof.
  unfold date_failure. destruct (truthy v), (isISO8601 (toString v)); cbn; split;
    intros H; try reflexivity; try discriminate; auto.
  destruct H; discriminate.
Qed.

(** X11.  The create form and the update form of an Author are accepted under
    the same conditions: both names are not empty once trimmed, and each
    date is either left empty or an ISO 8601 date. *)
Theorem author_forms_accepted
        (isISO8601 : string -> bool) (Date_parse : string -> option string)
        (b : AuthorForm.t) :
  let accepted :=
    isLength 1 (trim (toString (AuthorForm.first_name b))) = true /\
    isLength 1 (trim (toString (AuthorForm.family_name b))) = true /\
    (truthy (AuthorForm.date_of_birth b) = false \/
     isISO8601 (toString (AuthorForm.date_of_birth b)) = true) /\
    (truthy (AuthorForm.date_of_death b) = false \/
     isISO8601 (toString (AuthorForm.date_of_death b)) = true) in
  (snd (author_create_validate isISO8601 Date_parse b) = [] <-> accepted) /\
  (snd (author_update_validate isISO8601 Date_parse b) = [] <-> accepted).
Proof.
  intros accepted. subst accepted. split.
  - unfold author_create_validate, author_create_chains. cbn [snd].
    rewrite !run_trim_isLength_escape_withMessage, !run_date_chain. cbn [snd].
    rewrite !app_nil_iff, !length_failure_nil, !date_failure_nil. reflexivity.
  - unfold author_update_validate, author_update_chains. cbn [snd].
    rewrite !run_trim_isLength_escape, !run_date_chain. cbn [snd].
    rewrite !app_nil_iff, !length_failure_nil, !date_failure_nil. reflexivity.
Qed.

Lemma author_forms_accepted_witness :
  snd (author_create_validate (fun _ => false) (fun _ => None)
         (AuthorForm.mk (VStr " Jane ") (VStr "Austen") (VStr "") VUndefined)) = [].
Proof.
  apply (proj1 (author_forms_accepted (fun _ => false) (fun _ => None)
                  (AuthorForm.mk (VStr " Jane ") (VStr "Austen") (VStr "") VUndefined))).
  repeat apply conj; try reflexivity; left; reflexivity.
Defined.

(** X12.  A Genre name is accepted on creation when it has at least three
    characters once trimmed, and on update when it has at least one: a name
    of one or two characters can be given by an update and not by a
    creation. *)
Theorem genre_name_thresholds (v : fval) :
  (failures genre_create_chain v = [] <-> 3 <= String.length (trim (toString v))) /\
  (failures genre_update_chain v = [] <-> 1 <= String.length (trim (toString v))).
Proof.
  unfold failures, genre_create_chain, genre_update_chain.
  rewrite !run_trim_isLength_escape. cbn [snd].
  rewrite !length_failure_nil. unfold isLength.
  split; apply Nat.leb_le.
Qed.

Lemma genre_name_thresholds_witness :
  failures genre_update_chain (VStr " SF ") = [] /\
  failures genre_create_chain (VStr " SF ") <> [].
Proof.
  split.
  - apply (proj2 (genre_name_thresholds (VStr " SF "))). vm_compute. lia.
  - intros H. apply (proj1 (genre_name_thresholds (VStr " SF "))) in H.
    vm_compute in H. lia.
Defined.

Lemma falsy_toString (v : fval) : truthy v = false -> toString v = "".
Proof.
  destruct v as [| |s|d]; cbn; try reflexivity; [|discriminate].
  intros H. apply negb_false_iff in H. now apply String.eqb_eq in H.
Qed.

Lemma isLength_1 (s : string) : s <> "" -> isLength 1 s = true.
Proof. destruct s; [contradiction | reflexivity]. Qed.

Lemma run_imprint_chain (v : fval) :
  snd (run_chain (body "imprint" None [optional_checkFalsy; Trim; IsLength 1; Escape]) v)
  = [].
Proof.
  unfold run_chain. cbn.
  destruct (truthy v); cbn; [|reflexivity].
  destruct (trim (toString v) =? "") eqn:E; cbn; [reflexivity|].
  apply String.eqb_neq in E. now rewrite (isLength_1 _ E).
Qed.

Lemma run_due_back_chain (isISO8601 : string -> bool)
      (Date_parse : string -> option string) (v : fval) :
  snd (run_chain (body "due_back" None
                       [optional_checkFalsy; Trim; IsISO8601 isISO8601; ToDate Date_parse]) v)
  = [] <->
  (trim (toString v) = "" \/ isISO8601 (trim (toString v)) = true).
Proof.
  unfold run_chain. cbn.
  destruct (truthy v) eqn:T; cbn.
  - destruct (trim (toString v) =? "") eqn:E; cbn.
    + apply String.eqb_eq in E. split; auto.
    + apply String.eqb_neq in E.
      destruct (isISO8601 (trim (toString v))); cbn.
      * split; auto.
      * split; [discriminate|].
        intros [H|H]; [contradiction | discriminate].
  - rewrite (falsy_toString v T). split; [now left | reflexivity].
Qed.

(** X13.  The update form of a BookInstance is accepted when the book and the
    status are not empty once trimmed and the due date is empty once
    trimmed or an ISO 8601 date.  The imprint is never a reason to refuse
    the form: no failure is reported for it, whatever is submitted. *)
Theorem bookinstance_update_accepted
        (isISO8601 : string -> bool) (Date_parse : string -> option string)
        (b : BookInstanceForm.t) :
  (snd (bookinstance_update_validate isISO8601 Date_parse b) = [] <->
   isLength 1 (trim (toString (BookInstanceForm.book b))) = true /\
   (trim (toString (BookInstanceForm.due_back b)) = "" \/
    isISO8601 (trim (toString (BookInstanceForm.due_back b))) = true) /\
   isLength 1 (trim (toString (BookInstanceForm.status b))) = true) /\
  (forall e, In e (snd (bookinstance_update_validate isISO8601 Date_parse b)) ->
             ve_path e = "book" \/ ve_path e = "due_back" \/ ve_path e = "status").
Proof.
  unfold bookinstance_update_validate, bookinstance_update_chains. cbn [snd].
  rewrite !run_trim_isLength_escape, run_imprint_chain. cbn [snd app].
  split.
  - rewrite !app_nil_iff, !length_failure_nil, run_due_back_chain. reflexivity.
  - intros e He. apply in_app_or in He. destruct He as [He|He].
    + unfold length_failure in He.
      destruct (isLength 1 (trim (toString (BookInstanceForm.book b)))); [contradiction|].
      destruct He as [<-|[]]. now left.
    + apply in_app_or in He. destruct He as [He|He].
      * right; left. revert He. unfold run_chain. cbn.
        destruct (truthy (BookInstanceForm.due_back b)); cbn; [|contradiction].
        destruct (trim (toString (BookInstanceForm.due_back b)) =? ""); cbn;
          [contradiction|].
        destruct (isISO8601 (trim (toString (BookInstanceForm.due_back b)))); cbn;
          try contradiction; intros [<-|[]]; reflexivity.
      * unfold length_failure in He.
        destruct (isLength 1 (trim (toString (BookInstanceForm.status b))));
          [contradiction|].
        destruct He as [<-|[]]. right; right. reflexivity.
Qed.

Lemma bookinstance_update_accepted_witness :
  snd (bookinstance_update_validate (fun _ => false) (fun _ => None)
         (BookInstanceForm.mk (VStr "b1") (VStr "   ") (VStr " ") (VStr "Loaned"))) = [].
Proof.
  apply (proj1 (bookinstance_update_accepted (fun _ => false) (fun _ => None)
                  (BookInstanceForm.mk (VStr "b1") (VStr "   ") (VStr " ") (VStr "Loaned")))).
  repeat apply conj; try reflexivity. left. reflexivity.
Defined.

(** ** What is written is escaped *)

Lemma no_markup_app (a b : string) : no_markup (a ++ b) = no_markup a && no_markup b.
Proof.
  induction a as [|c r IH]; cbn; [reflexivity|].
  now rewrite IH, andb_assoc.
Qed.

Lemma no_markup_escape_char (c : ascii) : no_markup (escape_char c) = true.
Proof.
  destruct c as [[] [] [] [] [] [] [] []]; reflexivity.
Qed.

Lemma no_markup_escape (s : string) : no_markup (escape s) = true.
Proof.
  induction s as [|c r IH]; [reflexivity|].
  change (escape (String c r)) with (escape_char c ++ escape r).
  now rewrite no_markup_app, no_markup_escape_char, IH.
Qed.

Lemma length_append (a b : string) :
  String.length (a ++ b) = String.length a + String.length b.
Proof. induction a as [|c r IH]; cbn; [reflexivity | now rewrite IH]. Qed.

Lemma length_escape (s : string) : String.length s <= String.length (escape s).
Proof.
  induction s as [|c r IH]; [apply le_n|].
  change (escape (String c r)) with (escape_char c ++ escape r).
  rewrite length_append. cbn [String.length].
  assert (1 <= String.length (escape_char c)).
  { pose proof (escape_char_not_empty c) as H.
    destruct (escape_char c); [contradiction | cbn; lia]. }
  lia.
Qed.

Lemma findByIdAndUpdate_In {A} (id_of : A -> oid) (assign : A -> A -> A)
      (c : list A) (id : oid) (new x : A) :
  In x (snd (findByIdAndUpdate id_of assign c id new)) ->
  In x c \/ exists d, In d c /\ x = assign d new.
Proof.
  induction c as [|y r IH]; cbn; [tauto|].
  destruct (id_of y =? id); cbn.
  - intros [<-|H]; [right; exists y; auto | auto].
  - destruct (findByIdAndUpdate id_of assign r id new) as [o r'].
    cbn in IH |- *. intros [<-|H]; [auto|].
    destruct (IH H) as [H'|(d & Hd & ->)]; [auto|].
    right. exists d. auto.
Qed.

(** X14.  A Genre that create-submit or update-submit puts into the store, and
    that was not there before, has a name without any of the characters
    that [escape] replaces; one put there by create-submit has a name of at
    least three characters. *)
Theorem genre_names_written_escaped (s : store) (id : oid) (b : GenreForm.t) (g : Genre.t) :
  ~ In g (genres s) ->
  (In g (genres (fst (serve (genre_create_post id b) s))) ->
   exists n, Genre.name g = Some n /\ no_markup n = true /\ 3 <= String.length n) /\
  (In g (genres (fst (serve (genre_update_post id b) s))) ->
   exists n, Genre.name g = Some n /\ no_markup n = true).
Proof.
  intros Hnew. split.
  - unfold genre_create_post, genre_create_chain.
    rewrite run_trim_isLength_escape. unfold length_failure, save_genre.
    destruct (isLength 3 (trim (toString (GenreForm.name b)))) eqn:Hlen;
      split_branches; intros Hin; try contradiction.
    match goal with E : insert _ _ _ = Some _ |- _ =>
      apply insert_Some in E; destruct E as [-> _] end.
    apply in_app_or in Hin. destruct Hin as [Hin|[<-|[]]]; [contradiction|].
    eexists. split; [reflexivity|]. split; [apply no_markup_escape|].
    unfold isLength in Hlen. apply Nat.leb_le in Hlen.
    pose proof (length_escape (trim (toString (GenreForm.name b)))). lia.
  - unfold genre_update_post, genre_update_chain.
    rewrite run_trim_isLength_escape. unfold length_failure, update_genre.
    destruct (isLength 1 (trim (toString (GenreForm.name b)))) eqn:Hlen;
      split_branches; intros Hin; try contradiction.
    all: match goal with E : findByIdAndUpdate ?f ?a ?c ?i ?n = (_, ?l) |- _ =>
           pose proof (findByIdAndUpdate_In f a c i n g) as K;
           rewrite E in K; destruct (K Hin) as [K'|(d & _ & ->)]; [contradiction|]
         end.
    all: eexists; split; [reflexivity | apply no_markup_escape].
Qed.

Lemma genre_names_written_escaped_witness :
  exists n, Genre.name (Genre.mk "g2" (Some "Sci&#x2F;Fi &lt;hard&gt;")) = Some n /\
            no_markup n = true /\ 3 <= String.length n.
Proof.
  refine (proj1 (genre_names_written_escaped shelf "g2"
                   (GenreForm.mk (VStr " Sci/Fi <hard> "))
                   (Genre.mk "g2" (Some "Sci&#x2F;Fi &lt;hard&gt;")) _) _).
  - intros [H|[]]. discriminate H.
  - vm_compute. right. left. reflexivity.
Defined.

(** ** Creating an Author *)

Lemma author_create_validate_eq
      (isISO8601 : string -> bool) (Date_parse : string -> option string)
      (b : AuthorForm.t) :
  snd (author_create_validate isISO8601 Date_parse b) = [] ->
  AuthorForm.first_name (fst (author_create_validate isISO8601 Date_parse b))
  = sanitize_text (AuthorForm.first_name b) /\
  AuthorForm.family_name (fst (author_create_validate isISO8601 Date_parse b))
  = sanitize_text (AuthorForm.family_name b) /\
  isLength 1 (trim (toString (AuthorForm.first_name b))) = true /\
  isLength 1 (trim (toString (AuthorForm.family_name b))) = true.
Proof.
  unfold author_create_validate, author_create_chains. cbn [fst snd].
  rewrite !run_trim_isLength_escape_withMessage. cbn [fst snd].
  rewrite !app_nil_iff, !length_failure_nil. intros (H1 & H2 & _).
  repeat apply conj; try reflexivity; assumption.
Qed.

(** X15.  On create-submit of an Author: a form with failures is rendered again
    with the Author built from the sanitized input and with the failures,
    and nothing is stored.  An accepted form whose two sanitized names have
    at most 100 characters is stored under the new identity (which no
    Author of the store has), and the answer is a redirect to its canonical
    path.  An accepted form with a sanitized name of more than 100
    characters is refused by the schema when the document is saved: nothing
    is stored and the error is passed to [next]. *)
Theorem author_create_post_spec
        (isISO8601 : string -> bool) (Date_parse : string -> option string)
        (s : store) (fresh : oid) (b : AuthorForm.t) :
  let v := author_create_validate isISO8601 Date_parse b in
  let author := new_Author Date_parse fresh (fst v) in
  let first := escape (trim (toString (AuthorForm.first_name b))) in
  let family := escape (trim (toString (AuthorForm.family_name b))) in
  (snd v <> [] ->
   serve (author_create_post isISO8601 Date_parse fresh b) s =
   (s, [Render "author_form"
          [("title", PString "Create Form");
           ("author", PAuthor (Some author));
           ("errors", PErrors (snd v))]])) /\
  (snd v = [] ->
   String.length first <= 100 -> String.length family <= 100 ->
   findById Author._id (authors s) fresh = None ->
   Author.first_name author = Some first /\ Author.family_name author = Some family /\
   serve (author_create_post isISO8601 Date_parse fresh b) s =
   (set_authors s (authors s ++ [author]), [Redirect ("/catalog/author/" ++ fresh)])) /\
  (snd v = [] ->
   100 < String.length first \/ 100 < String.length family ->
   exists err,
     serve (author_create_post isISO8601 Date_parse fresh b) s = (s, [Next err]) /\
     e_name err = "ValidationError" /\ error_status err = 500).
Proof.
  intros v author first family. subst v author first family.
  repeat apply conj.
  - intros H. unfold author_create_post.
    destruct (author_create_validate isISO8601 Date_parse b) as [b' errors].
    cbn in H |- *. destruct errors; [contradiction|].
    run_handler. now destruct s.
  - intros Hpass H1 H2 Hfresh.
    destruct (author_create_validate_eq isISO8601 Date_parse b Hpass)
      as (E1 & E2 & L1 & L2).
    unfold author_create_post.
    destruct (author_create_validate isISO8601 Date_parse b) as [b' errors].
    cbn [fst snd] in *. subst errors.
    assert (F1 : Author.first_name (new_Author Date_parse fresh b')
                 = Some (escape (trim (toString (AuthorForm.first_name b)))))
      by (unfold new_Author; cbn; now rewrite E1).
    assert (F2 : Author.family_name (new_Author Date_parse fresh b')
                 = Some (escape (trim (toString (AuthorForm.family_name b)))))
      by (unfold new_Author; cbn; now rewrite E2).
    split; [exact F1|]. split; [exact F2|].
    unfold save_author, author_paths_valid. rewrite F1, F2.
    cbn [path_truthy maxLength].
    rewrite (sanitized_not_empty 0 _ L1), (sanitized_not_empty 0 _ L2).
    apply Nat.leb_le in H1, H2. rewrite H1, H2.
    run_handler. unfold insert. cbn [Author._id new_Author].
    rewrite Hfresh. reflexivity.
  - intros Hpass Hlong.
    destruct (author_create_validate_eq isISO8601 Date_parse b Hpass)
      as (E1 & E2 & L1 & L2).
    unfold author_create_post.
    destruct (author_create_validate isISO8601 Date_parse b) as [b' errors].
    cbn [fst snd] in *. subst errors.
    assert (F1 : Author.first_name (new_Author Date_parse fresh b')
                 = Some (escape (trim (toString (AuthorForm.first_name b)))))
      by (unfold new_Author; cbn; now rewrite E1).
    assert (F2 : Author.family_name (new_Author Date_parse fresh b')
                 = Some (escape (trim (toString (AuthorForm.family_name b)))))
      by (unfold new_Author; cbn; now rewrite E2).
    unfold save_author, author_paths_valid. rewrite F1, F2.
    cbn [path_truthy maxLength].
    assert (V : (String.length (escape (trim (toString (AuthorForm.first_name b))))
                 <=? 100)%nat
                && negb (escape (trim (toString (AuthorForm.family_name b))) =? "")
                && (String.length (escape (trim (toString (AuthorForm.family_name b))))
                    <=? 100)%nat = false).
    { destruct Hlong as [H|H]; apply Nat.leb_gt in H; rewrite H;
        [reflexivity | now rewrite andb_false_r]. }
    rewrite <- !andb_assoc. rewrite <- andb_assoc in V. rewrite V, andb_false_r.
    run_handler. eexists. split; [now destruct s | split; reflexivity].
Qed.

Lemma author_create_post_spec_witness :
  (exists err,
      serve (author_create_post (fun _ => true) (fun _ => None) "a9"
               (AuthorForm.mk (VStr "aaaaaaaaaaaaaaaaaaaaaaaaaaaaaaaaaaaaaaaaaaaaaaaaaaaaaaaaaaaaaaaaaaaaaaaaaaaaaaaaaaaaaaaaaaaaaaaaaaaaa")
                              (VStr "Austen") VUndefined VUndefined)) shelf =
      (shelf, [Next err]) /\ e_name err = "ValidationError" /\ error_status err = 500) /\
  fst (serve (author_create_post (fun _ => true) (fun _ => None) "a9"
                (AuthorForm.mk (VStr "") (VStr "Austen") VUndefined VUndefined)) shelf)
  = shelf /\
  snd (serve (author_create_post (fun _ => true) (fun _ => None) "a9"
                (AuthorForm.mk (VStr "Jane") (VStr "Austen") VUndefined VUndefined)) shelf)
  = [Redirect "/catalog/author/a9"].
Proof.
  split; [|split].
  - apply (proj2 (proj2 (author_create_post_spec (fun _ => true) (fun _ => None) shelf "a9"
                           (AuthorForm.mk (VStr "aaaaaaaaaaaaaaaaaaaaaaaaaaaaaaaaaaaaaaaaaaaaaaaaaaaaaaaaaaaaaaaaaaaaaaaaaaaaaaaaaaaaaaaaaaaaaaaaaaaaa")
                                          (VStr "Austen") VUndefined VUndefined)))).
    + reflexivity.
    + left. vm_compute. lia.
  - rewrite (proj1 (author_create_post_spec (fun _ => true) (fun _ => None) shelf "a9"
                      (AuthorForm.mk (VStr "") (VStr "Austen") VUndefined VUndefined)));
      [reflexivity | discriminate].
  - destruct (proj1 (proj2 (author_create_post_spec (fun _ => true) (fun _ => None)
                              shelf "a9"
                              (AuthorForm.mk (VStr "Jane") (VStr "Austen")
                                             VUndefined VUndefined))))
      as (_ & _ & H); [reflexivity | vm_compute; lia | vm_compute; lia | reflexivity |].
    now rewrite H.
Defined.

(** ** One answer per request *)

Ltac one_call := split_branches; reflexivity.

(** X16.  Every submit handler, every detail view, every update form and every
    list view makes exactly one call on [res] or [next], whatever the
    request and the store: a request is never left without an answer and
    never answered twice. *)
Theorem handlers_answer_once
        (isISO8601 : string -> bool) (Date_parse : string -> option string)
        (s : store) (id formid fresh : oid) :
  (forall b, length (snd (serve (genre_create_post fresh b) s)) = 1) /\
  length (snd (serve (genre_delete_post id formid) s)) = 1 /\
  (forall b, length (snd (serve (genre_update_post id b) s)) = 1) /\
  (forall b, length (snd (serve (author_create_post isISO8601 Date_parse fresh b) s)) = 1) /\
  length (snd (serve (author_delete_post id formid) s)) = 1 /\
  (forall b, length (snd (serve (author_update_post isISO8601 Date_parse id b) s)) = 1) /\
  (forall b, length (snd (serve (book_create_post fresh b) s)) = 1) /\
  length (snd (serve (book_delete_post id formid) s)) = 1 /\
  (forall b, length (snd (serve (book_update_post id b) s)) = 1) /\
  length (snd (serve (bookinstance_delete_post formid) s)) = 1 /\
  (forall b,
      length (snd (serve (bookinstance_update_post isISO8601 Date_parse id b) s)) = 1) /\
  length (snd (serve (author_detail id) s)) = 1 /\
  length (snd (serve (genre_detail id) s)) = 1 /\
  length (snd (serve (book_detail id) s)) = 1 /\
  length (snd (serve (bookinstance_detail id) s)) = 1 /\
  length (snd (serve (author_update_get id) s)) = 1 /\
  length (snd (serve (genre_update_get id) s)) = 1 /\
  length (snd (serve (book_update_get id) s)) = 1 /\
  length (snd (serve (bookinstance_update_get id) s)) = 1 /\
  length (snd (serve author_list s)) = 1 /\
  length (snd (serve genre_list s)) = 1 /\
  length (snd (serve bookinstance_list s)) = 1.
Proof.
  repeat apply conj.
  - intros b. unfold genre_create_post.
    destruct (run_chain genre_create_chain (GenreForm.name b)) as [n errs].
    unfold save_genre. destruct errs; one_call.
  - unfold genre_delete_post. one_call.
  - intros b. unfold genre_update_post.
    destruct (run_chain genre_update_chain (GenreForm.name b)) as [n errs].
    unfold update_genre. destruct errs; one_call.
  - intros b. unfold author_create_post.
    destruct (author_create_validate isISO8601 Date_parse b) as [b' errs].
    unfold save_author. destruct errs; one_call.
  - unfold author_delete_post. one_call.
  - intros b. unfold author_update_post.
    destruct (author_update_validate isISO8601 Date_parse b) as [b' errs].
    unfold update_author. destruct errs; one_call.
  - intros b. unfold book_create_post.
    destruct (book_create_middlewares b) as [b' errs].
    unfold save_book. destruct errs; one_call.
  - unfold book_delete_post. one_call.
  - intros b. unfold book_update_post.
    destruct (book_update_middlewares b) as [b' errs].
    unfold update_book. destruct errs; one_call.
  - unfold bookinstance_delete_post. one_call.
  - intros b. unfold bookinstance_update_post.
    destruct (bookinstance_update_validate isISO8601 Date_parse b) as [b' errs].
    unfold update_bookinstance, book_id_of. destruct errs; one_call.
  - unfold author_detail. one_call.
  - unfold genre_detail. one_call.
  - unfold book_detail. one_call.
  - unfold bookinstance_detail. one_call.
  - unfold author_update_get. one_call.
  - unfold genre_update_get. one_call.
  - unfold book_update_get. one_call.
  - unfold bookinstance_update_get, book_id_of. one_call.
  - unfold author_list. one_call.
  - unfold genre_list. one_call.
  - unfold bookinstance_list. one_call.
Qed.

(** The delete confirmations make one call when the record exists and two
    when it does not. *)
Lemma delete_get_calls (s : store) (id : oid) :
  length (snd (serve (author_delete_get id) s))
  = (if is_null (findById Author._id (authors s) id) then 2 else 1) /\
  length (snd (serve (genre_delete_get id) s))
  = (if is_null (findById Genre._id (genres s) id) then 2 else 1) /\
  length (snd (serve (book_delete_get id) s))
  = (if is_null (findById Book._id (books s) id) then 2 else 1) /\
  length (snd (serve (bookinstance_delete_get id) s))
  = (if is_null (findById BookInstance._id (bookinstances s) id) then 2 else 1).
Proof.
  repeat apply conj.
  - unfold author_delete_get. run_handler.
    destruct (findById Author._id (authors s) id); reflexivity.
  - unfold genre_delete_get. run_handler.
    destruct (findById Genre._id (genres s) id); reflexivity.
  - unfold book_delete_get. run_handler.
    destruct (findById Book._id (books s) id); reflexivity.
  - unfold bookinstance_delete_get. run_handler.
    destruct (findById BookInstance._id (bookinstances s) id); reflexivity.
Qed.

(** ** A Book after its creation and after its update *)

Lemma book_validate_passes (b : BookForm.t) :
  snd (book_validate b) = [] ->
  isLength 1 (trim (toString (BookForm.title b))) = true /\
  isLength 1 (trim (toString (BookForm.author b))) = true /\
  isLength 1 (trim (toString (BookForm.summary b))) = true /\
  isLength 1 (trim (toString (BookForm.isbn b))) = true.
Proof.
  rewrite book_validate_eq. cbn [snd].
  rewrite !app_nil_iff, !length_failure_nil. tauto.
Qed.

Lemma populate_book_set_books (s : store) (l : list Book.t) (b : Book.t) :
  populate_book (set_books s l) b = populate_book s b.
Proof. reflexivity. Qed.

Lemma instances_of_book_set_books (s : store) (l : list Book.t) (id : oid) :
  instances_of_book (set_books s l) id = instances_of_book s id.
Proof. reflexivity. Qed.

(** X17.  On create-submit of a Book whose form is accepted, under a new identity
    that no Book of the store has: the Book is stored with the sanitized
    title, author, summary and ISBN and with the list of its escaped
    genres (empty when no genre was submitted), the answer is a redirect
    to its canonical path, and the detail view of that identity then
    renders the Book. *)
Theorem book_create_then_detail (s : store) (fresh : oid) (b : BookForm.t) :
  let text := fun v => escape (trim (toString v)) in
  let book :=
    Book.mk fresh (Some (text (BookForm.title b))) (Some (text (BookForm.author b)))
            (Some (text (BookForm.summary b))) (Some (text (BookForm.isbn b)))
            (match BookForm.genre b with
             | genre_undefined => []
             | genre_string g => [escape g]
             | genre_array l => map escape l
             end) in
  let s' := set_books s (books s ++ [book]) in
  snd (book_create_middlewares b) = [] ->
  findById Book._id (books s) fresh = None ->
  serve (book_create_post fresh b) s = (s', [Redirect ("/catalog/book/" ++ fresh)]) /\
  serve (book_detail fresh) s' =
  (s', [Render "book_detail"
          [("title", PValue (Some (text (BookForm.title b))));
           ("book", PBookPopulated (Some (populate_book s book)));
           ("book_instances", PInstanceDocs (instances_of_book s fresh))]]).
Proof.
  intros text book s' Hpass Hfresh. subst text s'.
  unfold book_create_middlewares in Hpass.
  destruct (book_validate_passes _ Hpass) as (Ht & Ha & Hs & Hi).
  cbn [with_genre BookForm.title BookForm.author BookForm.summary BookForm.isbn]
    in Ht, Ha, Hs, Hi.
  split.
  - unfold book_create_post, book_create_middlewares, with_genre.
    rewrite book_validate_eq. unfold length_failure.
    cbn [BookForm.title BookForm.author BookForm.summary BookForm.isbn BookForm.genre].
    rewrite Ht, Ha, Hs, Hi. run_handler.
    unfold save_book, book_paths_present, new_Book, sanitize_text. cbn.
    rewrite (sanitized_not_empty 0 _ Ht), (sanitized_not_empty 0 _ Ha),
      (sanitized_not_empty 0 _ Hs), (sanitized_not_empty 0 _ Hi). cbn.
    rewrite (sanitized_not_empty 0 _ Ha). cbn.
    unfold insert. run_handler. rewrite Hfresh.
    subst book. destruct (BookForm.genre b); reflexivity.
  - unfold book_detail. run_handler.
    assert (Hf : findById Book._id (books s ++ [book])%list fresh = Some book)
      by exact (findById_app_new Book._id (books s) book Hfresh).
    rewrite Hf. run_handler.
    rewrite populate_book_set_books, instances_of_book_set_books. reflexivity.
Qed.

Lemma book_create_then_detail_witness :
  fst (serve (book_create_post "b9"
                (BookForm.mk (VStr " Sanditon ") (VStr "a1") (VStr "Unfinished.")
                             (VStr "9780199535552") genre_undefined)) shelf)
  = mkStore [austen] [novel]
            [emma; Book.mk "b9" (Some "Sanditon") (Some "a1") (Some "Unfinished.")
                           (Some "9780199535552") []]
            [copy1; copy2].
Proof.
  rewrite (proj1 (book_create_then_detail shelf "b9"
                    (BookForm.mk (VStr " Sanditon ") (VStr "a1") (VStr "Unfinished.")
                                 (VStr "9780199535552") genre_undefined)
                    eq_refl eq_refl)).
  reflexivity.
Defined.

(** X18.  On update-submit of a Book whose form is accepted, when the Book
    exists: the answer is a redirect to its canonical path and the Book of
    that identity now has the sanitized title, author, summary and ISBN.
    Its genre list is the submitted one: the escaped elements of an array,
    the single value as it was submitted, and the empty list when no genre
    was submitted.  The identities of the collection are what they
    were. *)
Theorem book_update_post_found (s : store) (id : oid) (b : BookForm.t) (old : Book.t) :
  let text := fun v => escape (trim (toString v)) in
  let book :=
    Book.mk id (Some (text (BookForm.title b))) (Some (text (BookForm.author b)))
            (Some (text (BookForm.summary b))) (Some (text (BookForm.isbn b)))
            (match BookForm.genre b with
             | genre_undefined => []
             | genre_string g => [g]
             | genre_array l => map escape l
             end) in
  snd (book_update_middlewares b) = [] ->
  findById Book._id (books s) id = Some old ->
  let s' := fst (serve (book_update_post id b) s) in
  snd (serve (book_update_post id b) s) = [Redirect ("/catalog/book/" ++ id)] /\
  findById Book._id (books s') id = Some book /\
  map Book._id (books s') = map Book._id (books s) /\
  authors s' = authors s /\ genres s' = genres s /\ bookinstances s' = bookinstances s.
Proof.
  intros text book Hpass Hold s'. subst text s'.
  unfold book_update_middlewares in Hpass.
  destruct (book_validate_passes _ Hpass) as (Ht & Ha & Hs & Hi).
  cbn [with_genre BookForm.title BookForm.author BookForm.summary BookForm.isbn]
    in Ht, Ha, Hs, Hi.
  unfold book_update_post, book_update_middlewares, with_genre.
  rewrite book_validate_eq. unfold length_failure.
  cbn [BookForm.title BookForm.author BookForm.summary BookForm.isbn BookForm.genre].
  rewrite Ht, Ha, Hs, Hi. unfold update_book. run_handler.
  assert (Hid : forall o n, Book._id (Book.assign o n) = Book._id o) by reflexivity.
  match goal with
  | |- context [findByIdAndUpdate Book._id Book.assign (books s) id ?n] =>
      pose proof (findByIdAndUpdate_found Book._id Book.assign (books s) id n old Hid Hold)
        as [Hfst Hfind];
      pose proof (findByIdAndUpdate_ids Book._id Book.assign (books s) id n Hid) as Hids;
      destruct (findByIdAndUpdate Book._id Book.assign (books s) id n) as [o l]
  end.
  cbn [fst snd] in Hfst, Hfind, Hids. subst o. run_handler.
  apply findById_Some_In in Hold. destruct Hold as [_ Hoid].
  unfold Book.url. rewrite Hoid. repeat apply conj; try reflexivity; [|exact Hids].
  rewrite Hfind. unfold Book.assign, new_Book, sanitize_text, cast_oid. cbn.
  rewrite (sanitized_not_empty 0 _ Ha), Hoid. subst book.
  unfold book_update_genre_to_array. cbn.
  destruct (BookForm.genre b); reflexivity.
Qed.

Lemma book_update_post_found_witness :
  findById Book._id
           (books (fst (serve (book_update_post "b1"
                                 (BookForm.mk (VStr "Emma") (VStr "a1") (VStr "Revised.")
                                              (VStr "9780141439587") genre_undefined))
                              shelf))) "b1"
  = Some (Book.mk "b1" (Some "Emma") (Some "a1") (Some "Revised.")
                  (Some "9780141439587") []).
Proof.
  apply (book_update_post_found shelf "b1"
           (BookForm.mk (VStr "Emma") (VStr "a1") (VStr "Revised.")
                        (VStr "9780141439587") genre_undefined) emma eq_refl eq_refl).
Defined.

(** ** Fields with no-break spaces, and dates left empty *)

(** A name that differs from an existing one by a no-break space at its
    edge is that name: nothing is inserted.  A title, or an updated name,
    made of a no-break space is empty; and a name of two characters after a
    no-break space has two characters. *)
Lemma no_break_space_requests :
  serve (genre_create_post "g2" (GenreForm.mk (VStr (nbsp ++ "Novel")))) shelf
  = (shelf, [Redirect "/catalog/genre/g1"]) /\
  failures genre_create_chain (VStr (nbsp ++ "ab"))
  = [mkVerror "name" "Genre must be at least 3 characters" (VStr "ab")] /\
  serve (genre_update_post "zz" (GenreForm.mk (VStr nbsp))) shelf
  = (shelf,
     [Render "genre_form"
        [("title", PString "Update Genre");
         ("genre", PGenre (Some (Genre.mk "zz" (Some ""))));
         ("errors",
          PErrors [mkVerror "name" "An updated genre name must be provided" (VStr "")])]]) /\
  fst (serve (book_create_post "b9"
                (BookForm.mk (VStr nbsp) (VStr "a1") (VStr "s") (VStr "1") genre_undefined))
             shelf) = shelf.
Proof. repeat apply conj; reflexivity. Qed.

(** On update-submit of an Author, a date submitted empty clears the stored
    date, and a date that is not submitted leaves it. *)
Lemma author_update_post_dates
      (isISO8601 : string -> bool) (Date_parse : string -> option string) :
  fst (serve (author_update_post isISO8601 Date_parse "a1"
                (AuthorForm.mk (VStr "Jane") (VStr "Austen") (VStr "") VUndefined))
             (mkStore [austen_dated] [] [] []))
  = mkStore [Author.mk "a1" (Some "Jane") (Some "Austen")
                       (Some None) (Some (Some "1817-07-18T00:00:00.000Z"))] [] [] [].
Proof. reflexivity. Qed.
